(** * CDC enrichment function: a shallow embedding and its properties

    The development follows [functions/cdc-enrichment/cdc-enrichment-function.py]:
    the single method [CDCEnrichmentFunction.process] decodes one Debezium
    change event, attaches derived metadata to it and serialises the result;
    any exception raised on the way is caught, logged, and the original input
    is handed back.

    Python values are modelled by the type [value], dictionaries by [gmap],
    exceptions by an explicit [result] monad, the logger by the list of lines
    it received.  What the function takes from the Python standard library
    (the UTF-8 codec, [json], [datetime]) is collected in the class
    [Runtime]; nothing is assumed about it.

    A Python string is a [string] with one character per code point (code
    points above 255 are not modelled).  A [gmap] does not record the order
    in which keys were inserted; that order only shows in the text
    [json.dumps] returns, which is left to the runtime.  The messages of the
    exceptions are the ones of CPython 3.8 to 3.12. *)

From Stdlib Require Import ZArith String List Ascii.
From Stdlib Require Import Floats.SpecFloat.
From stdpp Require Import gmap strings list fin_maps pretty.

Set Default Proof Using "Type".
#[local] Set Warnings "-register-all".
#[local] Open Scope string_scope.

(** ** Python values *)

(** The values [json.loads] can return: [None], booleans, integers, floats,
    strings, lists and dictionaries with string keys.  Two dictionaries are
    equal when they hold the same entries, as in Python. *)
Inductive value : Type :=
| VNone
| VBool (b : bool)
| VInt (z : Z)
| VFloat (f : spec_float)
| VStr (s : string)
| VList (l : list value)
| VDict (d : gmap string value).

(** A numeric operand of [ts_ms / 1000.0]; [True] and [False] count as the
    integers 1 and 0. *)
Inductive number : Type :=
| NInt (z : Z)
| NFloat (f : spec_float).

(** ** Exceptions and the error monad *)

Record exn : Type := Exn { exn_class : string; exn_msg : string }.

Inductive result (A : Type) : Type :=
| Ok (a : A)
| Raise (e : exn).
Arguments Ok {A} a.
Arguments Raise {A} e.

#[global] Instance result_ret : MRet result := fun _ a => Ok a.
#[global] Instance result_bind : MBind result := fun _ _ k m =>
  match m with
  | Ok a => k a
  | Raise e => Raise e
  end.

Definition type_name (v : value) : string :=
  match v with
  | VNone => "NoneType"
  | VBool _ => "bool"
  | VInt _ => "int"
  | VFloat _ => "float"
  | VStr _ => "str"
  | VList _ => "list"
  | VDict _ => "dict"
  end.

Definition AttributeError (cls attr : string) : exn :=
  Exn "AttributeError" ("'" ++ cls ++ "' object has no attribute '" ++ attr ++ "'").

Definition TypeError (msg : string) : exn := Exn "TypeError" msg.

Definition IndexError (msg : string) : exn := Exn "IndexError" msg.

(** ** Primitive operations on values *)

(** Truth value, as tested by [if x:] and [bool(x)]. *)
Definition truthy (v : value) : bool :=
  match v with
  | VNone => false
  | VBool b => b
  | VInt z => negb (z =? 0)%Z
  | VFloat (S754_zero _) => false
  | VFloat _ => true
  | VStr s => negb (String.eqb s "")
  | VList l => match l with [] => false | _ :: _ => true end
  | VDict d => negb (size d =? 0)%nat
  end.

(** [x is not None]. *)
Definition is_not_none (v : value) : bool :=
  match v with
  | VNone => false
  | _ => true
  end.

(** [x == s] for a string literal [s]: only an equal string compares equal. *)
Definition eq_str (v : value) (s : string) : bool :=
  match v with
  | VStr t => String.eqb t s
  | _ => false
  end.

(** [x in [s1, ..., sn]] for string literals. *)
Definition in_str_list (v : value) (l : list string) : bool :=
  existsb (eq_str v) l.

(** [x.get(k, dflt)]: only dictionaries have the method. *)
Definition py_get (v : value) (k : string) (dflt : value) : result value :=
  match v with
  | VDict d => Ok (default dflt (d !! k))
  | _ => Raise (AttributeError (type_name v) "get")
  end.

(** [table.get(key, dflt)] on a dictionary literal with string keys: the
    key is hashed first, which lists and dictionaries refuse. *)
Definition table_get (table : gmap string value) (key dflt : value) : result value :=
  match key with
  | VStr s => Ok (default dflt (table !! s))
  | VList _ | VDict _ => Raise (TypeError ("unhashable type: '" ++ type_name key ++ "'"))
  | _ => Ok dflt
  end.

(** [len(x)]. *)
Definition py_len (v : value) : result Z :=
  match v with
  | VStr s => Ok (Z.of_nat (String.length s))
  | VList l => Ok (Z.of_nat (length l))
  | VDict d => Ok (Z.of_nat (size d))
  | _ => Raise (TypeError ("object of type '" ++ type_name v ++ "' has no len()"))
  end.

(** Substring test, [needle in s] on two strings. *)
Fixpoint str_contains (needle s : string) : bool :=
  String.prefix needle s ||
  match s with
  | EmptyString => false
  | String _ s' => str_contains needle s'
  end.

(** [needle in x] for a string literal [needle]: substring of a string,
    element of a list, key of a dictionary. *)
Definition py_contains (needle : string) (v : value) : result bool :=
  match v with
  | VStr s => Ok (str_contains needle s)
  | VList l => Ok (existsb (fun x => eq_str x needle) l)
  | VDict d => Ok (bool_decide (is_Some (d !! needle)))
  | _ => Raise (TypeError ("argument of type '" ++ type_name v ++ "' is not iterable"))
  end.

(** [s.split(sep)] for a one-character separator. *)
Fixpoint split_on (sep : ascii) (s : string) : list string :=
  match s with
  | EmptyString => [EmptyString]
  | String c s' =>
      if Ascii.eqb c sep then EmptyString :: split_on sep s'
      else match split_on sep s' with
           | h :: t => String c h :: t
           | [] => [String c EmptyString]
           end
  end.

(** [x.split(sep)]: a method of strings only. *)
Definition py_split (v : value) (sep : ascii) : result (list string) :=
  match v with
  | VStr s => Ok (split_on sep s)
  | _ => Raise (AttributeError (type_name v) "split")
  end.

(** [parts[i]] on a list of strings. *)
Definition py_index (parts : list string) (i : nat) : result value :=
  match parts !! i with
  | Some s => Ok (VStr s)
  | None => Raise (IndexError "list index out of range")
  end.

(** ** What the function takes from outside *)

(** The message payload handed to [process]: text or raw bytes. *)
Inductive payload : Type :=
| Text (s : string)
| Bytes (b : list Byte.byte).

(** The standard-library functions [process] calls.  [utf8_encode] is total:
    it is applied to the output of [json.dumps], which is ASCII under the
    default [ensure_ascii]. *)
Class Runtime : Type := {
  utf8_decode : list Byte.byte → result string;       (* b.decode('utf-8') *)
  utf8_encode : string → list Byte.byte;             (* s.encode('utf-8') *)
  json_loads : string → result value;             (* json.loads(s) *)
  json_dumps : nat → value → result string;       (* json.dumps(v, indent=n) *)
  fromtimestamp_ms_iso : number → result string;  (* datetime.fromtimestamp(n / 1000.0).isoformat() *)
  utcnow_iso : string;                            (* datetime.utcnow().isoformat() *)
  str_other : value → string                      (* str(v) for floats, lists and dictionaries *)
}.

(** The context object.  A capability the object lacks ([hasattr] is false)
    is [None]; one it has returns a value or raises.  The logger, when the
    context has one, records the lines it is given. *)
Record Context : Type := {
  class_name : string;
  get_function_name : option (result value);
  get_function_version : option (result value);
  get_message_id : option (result value);
  get_current_message_topic_name : option (result value);
  get_partition_id : option (result value);
  has_logger : bool
}.

Inductive log_entry : Type :=
| LogInfo (line : string)
| LogError (line : string).

(** What the caller of [process] observes: a returned payload, or an
    exception that escaped. *)
Inductive outcome : Type :=
| Returned (p : payload)
| Propagated (e : exn).

(** ** The enrichment groups *)

Section Enrichment.
Context `{rt : Runtime}.

(** Lines 23-26: text is parsed as it is, bytes are decoded first. *)
Definition decode_message (input : payload) : result value :=
  match input with
  | Text s => json_loads s
  | Bytes b => s ← utf8_decode b; json_loads s
  end.

Definition op_labels : gmap string value :=
  <["c" := VStr "CREATE"]> (<["u" := VStr "UPDATE"]>
  (<["d" := VStr "DELETE"]> (<["r" := VStr "READ"]> ∅))).

(** Lines 36-46: the [operation] group. *)
Definition operation_group (op : value) : result value :=
  label ← table_get op_labels op (VStr "UNKNOWN");
  Ok (VDict (<["code" := op]> (<["label" := label]>
     (<["is_mutation" := VBool (in_str_list op ["c"; "u"; "d"])]> ∅)))).

(** [datetime.fromtimestamp(ts_ms / 1000.0).isoformat()]: the division is
    defined on numbers only. *)
Definition event_time_iso (ts_ms : value) : result string :=
  match ts_ms with
  | VInt z => fromtimestamp_ms_iso (NInt z)
  | VBool b => fromtimestamp_ms_iso (NInt (Z.b2z b))
  | VFloat f => fromtimestamp_ms_iso (NFloat f)
  | _ => Raise (TypeError ("unsupported operand type(s) for /: '" ++ type_name ts_ms
                           ++ "' and 'float'"))
  end.

(** Lines 50-55: the [timestamps] group, present when [ts_ms] is truthy. *)
Definition timestamps_group (ts_ms : value) : result (option value) :=
  if truthy ts_ms then
    iso ← event_time_iso ts_ms;
    Ok (Some (VDict (<["event_time_ms" := ts_ms]> (<["event_time_iso" := VStr iso]>
       (<["processing_time_iso" := VStr utcnow_iso]> ∅)))))
  else Ok None.

(** Lines 59-67: the [source_metadata] group, present when [source] is truthy. *)
Definition source_metadata_group (source : value) : result (option value) :=
  if truthy source then
    db ← py_get source "db" VNone;
    schema ← py_get source "schema" VNone;
    table ← py_get source "table" VNone;
    connector ← py_get source "connector" VNone;
    version ← py_get source "version" VNone;
    snapshot ← py_get source "snapshot" VNone;
    Ok (Some (VDict (<["database" := db]> (<["schema" := schema]> (<["table" := table]>
       (<["connector" := connector]> (<["version" := version]>
       (<["is_snapshot" := VBool (eq_str snapshot "true")]> ∅))))))))
  else Ok None.

(** Lines 73-78: the [data_quality] group. *)
Definition data_quality_group (before after : value) : result value :=
  field_count ← (if truthy after then py_len after else Ok 0%Z);
  is_complete ← (if is_not_none after then n ← py_len after; Ok (0 <? n)%Z else Ok false);
  Ok (VDict (<["has_before" := VBool (is_not_none before)]>
     (<["has_after" := VBool (is_not_none after)]>
     (<["field_count" := VInt field_count]>
     (<["is_complete" := VBool is_complete]> ∅))))).

(** Lines 81-87: the [customer_insights] group, present when [after] is
    truthy and contains ["email"]. *)
Definition customer_insights_group (after : value) : result (option value) :=
  has_key ← (if truthy after then py_contains "email" after else Ok false);
  if has_key : bool then
    email ← py_get after "email" (VStr "");
    has_at ← py_contains "@" email;
    email_domain ← (if has_at : bool
                    then parts ← py_split email "@"%char; py_index parts 1
                    else Ok VNone);
    email_length ← py_len email;
    Ok (Some (VDict (<["email_domain" := email_domain]>
       (<["has_email" := VBool (truthy email)]>
       (<["email_length" := VInt email_length]> ∅)))))
  else Ok None.

(** [str(x)], also what an f-string does with [{x}]. *)
Definition py_str (v : value) : string :=
  match v with
  | VStr s => s
  | VNone => "None"
  | VBool true => "True"
  | VBool false => "False"
  | VInt z => pretty z
  | _ => str_other v
  end.

(** [context.cap() if hasattr(context, 'cap') else fallback]. *)
Definition capability_or (cap : option (result value)) (fallback : value) : result value :=
  match cap with
  | Some r => r
  | None => Ok fallback
  end.

(** Lines 90-96: the [processing_metadata] group. *)
Definition processing_metadata_group (ctx : Context) : result value :=
  function_name ← capability_or (get_function_name ctx) (VStr "cdc-enrichment");
  function_version ← capability_or (get_function_version ctx) (VStr "1.0");
  message_id ← match get_message_id ctx with
               | Some r => id ← r; Ok (VStr (py_str id))
               | None => Ok VNone
               end;
  topic ← capability_or (get_current_message_topic_name ctx) VNone;
  partition_id ← capability_or (get_partition_id ctx) VNone;
  Ok (VDict (<["function_name" := function_name]>
     (<["function_version" := function_version]>
     (<["message_id" := message_id]>
     (<["topic" := topic]>
     (<["partition_id" := partition_id]> ∅)))))).

(** [enrichment[key] = group] when the group is computed. *)
Definition attach (key : string) (group : option value)
    (enrichment : gmap string value) : gmap string value :=
  match group with
  | Some g => <[key := g]> enrichment
  | None => enrichment
  end.

(** The [enrichment] dictionary after all its assignments, in the order the
    source makes them. *)
Definition assemble (operation : value) (timestamps source_metadata : option value)
    (data_quality : value) (customer_insights : option value)
    (processing_metadata : value) : gmap string value :=
  <["processing_metadata" := processing_metadata]>
    (attach "customer_insights" customer_insights
    (<["data_quality" := data_quality]>
    (attach "source_metadata" source_metadata
    (attach "timestamps" timestamps
    (<["operation" := operation]> ∅))))).

(** Lines 29-96: the enriched document, with the locals [source] and [op]
    that line 100 still reads. *)
Definition enrich (message : value) (ctx : Context) : result (value * value * value) :=
  op ← py_get message "op" (VStr "unknown");
  operation ← operation_group op;
  ts_ms ← py_get message "ts_ms" VNone;
  timestamps ← timestamps_group ts_ms;
  source ← py_get message "source" (VDict ∅);
  source_metadata ← source_metadata_group source;
  after ← py_get message "after" VNone;
  before ← py_get message "before" VNone;
  data_quality ← data_quality_group before after;
  customer_insights ← customer_insights_group after;
  processing_metadata ← processing_metadata_group ctx;
  let enrichment := assemble operation timestamps source_metadata data_quality
                             customer_insights processing_metadata in
  Ok (VDict (<["original" := message]> (<["enrichment" := VDict enrichment]> ∅)),
      source, op).

(** ** The logger and [process] *)

(** [context.get_logger()]: an attribute error for a context without one. *)
Definition get_logger (ctx : Context) : result unit :=
  if has_logger ctx then Ok tt
  else Raise (AttributeError (class_name ctx) "get_logger").

(** The f-string of line 100. *)
Definition info_line (source op : value) : result string :=
  table ← py_get source "table" (VStr "unknown");
  Ok ("Enriched message from " ++ py_str table ++ " - op: " ++ py_str op).

(** Lines 21-102: the body of the [try]. *)
Definition process_body (input : payload) (ctx : Context)
    : result (list Byte.byte * list log_entry) :=
  message ← decode_message input;
  '(enriched, source, op) ← enrich message ctx;
  output ← json_dumps 2 enriched;
  _ ← get_logger ctx;
  line ← info_line source op;
  Ok (utf8_encode output, [LogInfo line]).

Definition error_line (e : exn) : string := "Error processing message: " ++ exn_msg e.

(** Lines 19-107: [process], with the handler of lines 104-107. *)
Definition process (input : payload) (ctx : Context) : outcome * list log_entry :=
  match process_body input ctx with
  | Ok (output, log) => (Returned (Bytes output), log)
  | Raise e =>
      match get_logger ctx with
      | Ok _ => (Returned input, [LogError (error_line e)])
      | Raise e' => (Propagated e', [])
      end
  end.

(** ** Reading the enriched document *)

(** [v[k]] when [v] is a dictionary that has the key. *)
Definition field (k : string) (v : value) : option value :=
  match v with
  | VDict d => d !! k
  | _ => None
  end.

(** The value found by following the keys of [path] from [v]. *)
Fixpoint at_path (path : list string) (v : value) : option value :=
  match path with
  | [] => Some v
  | k :: path' => field k v ≫= at_path path'
  end.

(** [out] is what [process] returns for the parsed [message]: the encoded
    serialisation of the document [enriched] that [enrich] built. *)
Definition emits (message : value) (ctx : Context) (out : list Byte.byte)
    (enriched : value) : Prop :=
  ∃ source op output,
    enrich message ctx = Ok (enriched, source, op) ∧
    json_dumps 2 enriched = Ok output ∧
    out = utf8_encode output.

(** What the document built for [message] holds at [path]. *)
Definition emitted_at (message : value) (ctx : Context) (path : list string)
    : result (option value) :=
  '(enriched, _, _) ← enrich message ctx;
  Ok (at_path path enriched).

End Enrichment.

(** ** Test doubles

    A runtime whose parser knows the texts of a table and rejects every other
    text, and whose other functions return fixed values; three contexts; a
    few change events with their JSON texts. *)

Definition stub_runtime (known : list (string * value)) : Runtime := {|
  utf8_decode := fun b => Ok (string_of_list_byte b);
  utf8_encode := list_byte_of_string;
  json_loads := fun s =>
    match find (fun '(text, _) => String.eqb text s) known with
    | Some (_, v) => Ok v
    | None => Raise (Exn "JSONDecodeError" "Expecting value: line 1 column 1 (char 0)")
    end;
  json_dumps := fun _ _ => Ok "{}";
  fromtimestamp_ms_iso := fun _ => Ok "2023-11-14T22:13:20";
  utcnow_iso := "2023-11-14T22:13:21.000500";
  str_other := fun _ => "..."
|}.

(** A context with every capability. *)
Definition full_context : Context := {|
  class_name := "ContextImpl";
  get_function_name := Some (Ok (VStr "cdc-enrichment"));
  get_function_version := Some (Ok (VStr "2.1"));
  get_message_id := Some (Ok (VStr "(12,7,-1,0)"));
  get_current_message_topic_name := Some (Ok (VStr "persistent://public/default/cdc"));
  get_partition_id := Some (Ok (VInt 0));
  has_logger := true
|}.

(** A context with a logger and nothing else. *)
Definition logger_only_context : Context := {|
  class_name := "Mock";
  get_function_name := None;
  get_function_version := None;
  get_message_id := None;
  get_current_message_topic_name := None;
  get_partition_id := None;
  has_logger := true
|}.

(** A context without a logger. *)
Definition no_logger_context : Context := {|
  class_name := "object";
  get_function_name := None;
  get_function_version := None;
  get_message_id := None;
  get_current_message_topic_name := None;
  get_partition_id := None;
  has_logger := false
|}.

(** A JSON string literal: the text between double quotes. *)
Definition q (s : string) : string := String "034" (s ++ String "034" EmptyString).

(** The update of an order, with every field of the envelope. *)
Definition order_update : value :=
  VDict (<["op" := VStr "u"]> (<["ts_ms" := VInt 1700000000000]>
        (<["source" := VDict (<["db" := VStr "sales"]> (<["table" := VStr "orders"]>
                             (<["snapshot" := VStr "false"]> ∅)))]>
        (<["before" := VDict (<["status" := VStr "new"]> ∅)]>
        (<["after" := VDict (<["status" := VStr "shipped"]>
                            (<["email" := VStr "x@y.com"]> ∅))]> ∅))))).

Definition order_update_text : string :=
  "{" ++ q "op" ++ ":" ++ q "u" ++ "," ++ q "ts_ms" ++ ":1700000000000,"
  ++ q "source" ++ ":{" ++ q "db" ++ ":" ++ q "sales" ++ "," ++ q "table" ++ ":"
  ++ q "orders" ++ "," ++ q "snapshot" ++ ":" ++ q "false" ++ "},"
  ++ q "before" ++ ":{" ++ q "status" ++ ":" ++ q "new" ++ "},"
  ++ q "after" ++ ":{" ++ q "status" ++ ":" ++ q "shipped" ++ ","
  ++ q "email" ++ ":" ++ q "x@y.com" ++ "}}".

(** An event whose [source] is a string. *)
Definition string_source : value := VDict (<["source" := VStr "x"]> ∅).

Definition string_source_text : string := "{" ++ q "source" ++ ":" ++ q "x" ++ "}".

(** An event whose [email] has two [@]. *)
Definition two_at_email : value :=
  VDict (<["after" := VDict (<["email" := VStr "a@b@c"]> ∅)]> ∅).

Definition two_at_email_text : string :=
  "{" ++ q "after" ++ ":{" ++ q "email" ++ ":" ++ q "a@b@c" ++ "}}".

(** An event whose [email] is [null]. *)
Definition null_email : value :=
  VDict (<["after" := VDict (<["email" := VNone]> ∅)]> ∅).

Definition null_email_text : string :=
  "{" ++ q "after" ++ ":{" ++ q "email" ++ ":null}}".

(** An event whose [email] is an empty list. *)
Definition list_email : value :=
  VDict (<["after" := VDict (<["email" := VList []]> ∅)]> ∅).

Definition list_email_text : string :=
  "{" ++ q "after" ++ ":{" ++ q "email" ++ ":[]}}".

(** An event whose [source] is [null]. *)
Definition null_source : value := VDict (<["source" := VNone]> ∅).

Definition null_source_text : string := "{" ++ q "source" ++ ":null}".

Definition known_events : list (string * value) :=
  [(order_update_text, order_update); (string_source_text, string_source);
   (two_at_email_text, two_at_email); (null_email_text, null_email);
   (list_email_text, list_email); (null_source_text, null_source)].

Definition test_runtime : Runtime := stub_runtime known_events.

(** The bytes the stub serialiser stands for, and the log of a successful
    run on the order update. *)
Definition stub_out : list Byte.byte := list_byte_of_string "{}".

Definition order_log : list log_entry :=
  [LogInfo "Enriched message from orders - op: u"].

(** A delete: a [null] [after], no [source] and no [ts_ms]. *)
Definition order_delete : value :=
  VDict (<["op" := VStr "d"]> (<["before" := VDict (<["id" := VInt 1]> ∅)]>
        (<["after" := VNone]> ∅))).

Definition order_delete_text : string :=
  "{" ++ q "op" ++ ":" ++ q "d" ++ "," ++ q "before" ++ ":{" ++ q "id" ++ ":1},"
  ++ q "after" ++ ":null}".

Definition delete_log : list log_entry :=
  [LogInfo "Enriched message from unknown - op: d"].

(** Valid JSON that is no object. *)
Definition json_array : value := VList [VInt 1; VInt 2].

Definition json_array_text : string := "[1,2]".

(** An event whose [op] is a list. *)
Definition list_op : value := VDict (<["op" := VList []]> ∅).

Definition list_op_text : string := "{" ++ q "op" ++ ":[]}".

(** An event whose [ts_ms] is a string. *)
Definition string_ts : value := VDict (<["ts_ms" := VStr "soon"]> ∅).

Definition string_ts_text : string := "{" ++ q "ts_ms" ++ ":" ++ q "soon" ++ "}".

(** An event whose [after] is the number 0. *)
Definition zero_after : value := VDict (<["after" := VInt 0]> ∅).

Definition zero_after_text : string := "{" ++ q "after" ++ ":0}".

Definition edge_events : list (string * value) :=
  [(order_delete_text, order_delete); (json_array_text, json_array);
   (list_op_text, list_op); (string_ts_text, string_ts);
   (zero_after_text, zero_after)].

Definition edge_runtime : Runtime := stub_runtime (known_events ++ edge_events).

(** A context whose partition accessor raises. *)
Definition raising_context : Context := {|
  class_name := "Mock";
  get_function_name := Some (Ok (VStr "cdc-enrichment"));
  get_function_version := None;
  get_message_id := Some (Ok (VInt 42));
  get_current_message_topic_name := None;
  get_partition_id := Some (Raise (Exn "RuntimeError" "no partition"));
  has_logger := true
|}.

(** ** Reasoning about the error monad *)

Lemma bind_Ok {A B} (m : result A) (k : A → result B) (b : B) :
  m ≫= k = Ok b → ∃ a, m = Ok a ∧ k a = Ok b.
Proof. destruct m as [a|e]; [intros H; by exists a | discriminate]. Qed.

(** ** Lookups in the assembled document *)

Section Lookups.

Lemma py_get_Ok (v : value) (k : string) (dflt r : value) :
  py_get v k dflt = Ok r → ∃ d, v = VDict d ∧ r = default dflt (d !! k).
Proof. destruct v; simpl; try discriminate. intros [= <-]. eauto. Qed.

Lemma lookup_attach_eq (k : string) (g : option value) (m : gmap string value) :
  m !! k = None → attach k g m !! k = g.
Proof. destruct g; simpl; [by rewrite lookup_insert_eq | done]. Qed.

Lemma lookup_attach_ne (k k' : string) (g : option value) (m : gmap string value) :
  k ≠ k' → attach k g m !! k' = m !! k'.
Proof. destruct g; simpl; [apply lookup_insert_ne | done]. Qed.

Variables (operation data_quality processing_metadata : value).
Variables (timestamps source_metadata customer_insights : option value).

Lemma assemble_operation :
  assemble operation timestamps source_metadata data_quality
    customer_insights processing_metadata !! "operation"
  = Some operation.
Proof.
  unfold assemble.
  rewrite lookup_insert_ne, lookup_attach_ne, lookup_insert_ne by done.
  rewrite !lookup_attach_ne by done. apply lookup_insert_eq.
Qed.

Lemma assemble_timestamps :
  assemble operation timestamps source_metadata data_quality
    customer_insights processing_metadata !! "timestamps"
  = timestamps.
Proof.
  unfold assemble.
  rewrite lookup_insert_ne, lookup_attach_ne, lookup_insert_ne by done.
  rewrite lookup_attach_ne by done. apply lookup_attach_eq.
  by rewrite lookup_insert_ne.
Qed.

Lemma assemble_source_metadata :
  assemble operation timestamps source_metadata data_quality
    customer_insights processing_metadata !! "source_metadata"
  = source_metadata.
Proof.
  unfold assemble.
  rewrite lookup_insert_ne, lookup_attach_ne, lookup_insert_ne by done.
  apply lookup_attach_eq. rewrite lookup_attach_ne by done.
  by rewrite lookup_insert_ne.
Qed.

Lemma assemble_data_quality :
  assemble operation timestamps source_metadata data_quality
    customer_insights processing_metadata !! "data_quality"
  = Some data_quality.
Proof.
  unfold assemble.
  rewrite lookup_insert_ne, lookup_attach_ne by done. apply lookup_insert_eq.
Qed.

Lemma assemble_customer_insights :
  assemble operation timestamps source_metadata data_quality
    customer_insights processing_metadata !! "customer_insights"
  = customer_insights.
Proof.
  unfold assemble.
  rewrite lookup_insert_ne by done. apply lookup_attach_eq.
  rewrite lookup_insert_ne, !lookup_attach_ne by done.
  by rewrite lookup_insert_ne.
Qed.

Lemma assemble_processing_metadata :
  assemble operation timestamps source_metadata data_quality
    customer_insights processing_metadata !! "processing_metadata"
  = Some processing_metadata.
Proof. unfold assemble. apply lookup_insert_eq. Qed.

End Lookups.

(** ** What a successful run went through *)

Section Success.
Context `{rt : Runtime}.

(** A successful [enrich] read a dictionary, and every group returned. *)
Lemma enrich_Ok (message : value) (ctx : Context) (enriched source op : value) :
  enrich message ctx = Ok (enriched, source, op) →
  ∃ d operation timestamps source_metadata data_quality customer_insights
    processing_metadata,
    message = VDict d ∧
    op = default (VStr "unknown") (d !! "op") ∧
    source = default (VDict ∅) (d !! "source") ∧
    operation_group op = Ok operation ∧
    timestamps_group (default VNone (d !! "ts_ms")) = Ok timestamps ∧
    source_metadata_group source = Ok source_metadata ∧
    data_quality_group (default VNone (d !! "before"))
                       (default VNone (d !! "after")) = Ok data_quality ∧
    customer_insights_group (default VNone (d !! "after")) = Ok customer_insights ∧
    processing_metadata_group ctx = Ok processing_metadata ∧
    enriched = VDict (<["original" := message]> (<["enrichment" :=
      VDict (assemble operation timestamps source_metadata data_quality
                      customer_insights processing_metadata)]> ∅)).
Proof.
  unfold enrich. intros H.
  apply bind_Ok in H as (op' & Eop & H).
  apply py_get_Ok in Eop as (d & -> & ->).
  apply bind_Ok in H as (operation & Eoperation & H).
  apply bind_Ok in H as (ts_ms & Ets & H). injection Ets as <-.
  apply bind_Ok in H as (timestamps & Etimestamps & H).
  apply bind_Ok in H as (source' & Esource & H). injection Esource as <-.
  apply bind_Ok in H as (source_metadata & Esm & H).
  apply bind_Ok in H as (after & Eafter & H). injection Eafter as <-.
  apply bind_Ok in H as (before & Ebefore & H). injection Ebefore as <-.
  apply bind_Ok in H as (data_quality & Edq & H).
  apply bind_Ok in H as (customer_insights & Eci & H).
  apply bind_Ok in H as (processing_metadata & Epm & H).
  injection H as <- <- <-.
  exists d, operation, timestamps, source_metadata, data_quality,
    customer_insights, processing_metadata.
  repeat split; assumption.
Qed.

(** A successful [try] body serialised the document [enrich] built and
    logged one info line; [process] then returns the encoded bytes. *)
Lemma process_body_Ok (input : payload) (ctx : Context) (message : value)
    (out : list Byte.byte) (log : list log_entry) :
  decode_message input = Ok message →
  process_body input ctx = Ok (out, log) →
  (∃ enriched, emits message ctx out enriched) ∧
  has_logger ctx = true ∧
  (∃ line, log = [LogInfo line]) ∧
  process input ctx = (Returned (Bytes out), log).
Proof.
  intros Hdec Hbody. pose proof Hbody as H.
  unfold process_body in H. rewrite Hdec in H. simpl in H.
  apply bind_Ok in H as ([[enriched source] op] & Henrich & H).
  apply bind_Ok in H as (output & Hdumps & H).
  apply bind_Ok in H as (logger & Hlogger & H).
  apply bind_Ok in H as (line & Hline & [= <- <-]).
  unfold get_logger in Hlogger.
  destruct (has_logger ctx); [| discriminate].
  split_and!.
  - by exists enriched, source, op, output.
  - done.
  - by exists line.
  - unfold process. by rewrite Hbody.
Qed.

(** The group stored under [key] of the [enrichment] dictionary. *)
Lemma at_path_group (message : value) (e : gmap string value) (key : string)
    (path : list string) :
  at_path ("enrichment" :: key :: path)
          (VDict (<["original" := message]> (<["enrichment" := VDict e]> ∅)))
  = e !! key ≫= at_path path.
Proof. simpl. rewrite lookup_insert_ne by done. by rewrite lookup_insert_eq. Qed.

End Success.

(** ** The enrichment groups, one by one *)

Section Properties.
Context `{rt : Runtime}.

Lemma in_str_list_elem_of (v : value) (l : list string) :
  in_str_list v l = true ↔ v ∈ VStr <$> l.
Proof.
  unfold in_str_list. induction l as [|s l IH]; simpl.
  - split; [discriminate | by intros ?%elem_of_nil].
  - rewrite orb_true_iff, IH, elem_of_cons. apply or_iff_compat_r.
    destruct v; simpl; try (split; [discriminate | intros [=]]).
    rewrite String.eqb_eq. split; [by intros -> | by intros [= ->]].
Qed.

Lemma op_labels_lookup (s : string) :
  op_labels !! s =
    if decide (s = "c") then Some (VStr "CREATE")
    else if decide (s = "u") then Some (VStr "UPDATE")
    else if decide (s = "d") then Some (VStr "DELETE")
    else if decide (s = "r") then Some (VStr "READ")
    else None.
Proof.
  unfold op_labels. repeat case_decide; subst; simplify_map_eq; done.
Qed.

Lemma operation_group_Ok (op g : value) :
  operation_group op = Ok g →
  ∃ label,
    g = VDict (<["code" := op]> (<["label" := VStr label]>
          (<["is_mutation" := VBool (in_str_list op ["c"; "u"; "d"])]> ∅))) ∧
    (op = VStr "c" → label = "CREATE") ∧
    (op = VStr "u" → label = "UPDATE") ∧
    (op = VStr "d" → label = "DELETE") ∧
    (op = VStr "r" → label = "READ") ∧
    (op ∉ VStr <$> ["c"; "u"; "d"; "r"] → label = "UNKNOWN").
Proof.
  unfold operation_group. intros H.
  apply bind_Ok in H as (lbl & Elbl & [= <-]).
  destruct op as [| b | z | f | s | l | d]; simpl in Elbl;
    try discriminate; injection Elbl as <-;
    try (exists "UNKNOWN"; split_and!; [done | discriminate.. | done]).
  rewrite op_labels_lookup.
  repeat case_decide; subst; simpl.
  - exists "CREATE"; split_and!; try done. intros []. set_solver.
  - exists "UPDATE"; split_and!; try done. intros []. set_solver.
  - exists "DELETE"; split_and!; try done. intros []. set_solver.
  - exists "READ"; split_and!; try done. intros []. set_solver.
  - exists "UNKNOWN"; split_and!; try done; congruence.
Qed.

(** C6: every successfully processed envelope carries an [operation]
    group: [code] is the [op] of the envelope, or "unknown" when the envelope
    has none; [label] follows the table c -> CREATE, u -> UPDATE,
    d -> DELETE, r -> READ and is UNKNOWN for every other code; [is_mutation]
    is true exactly when the code is one of c, u, d. *)
Theorem operation_group_follows_table (input : payload) (ctx : Context)
    (message : value) (out : list Byte.byte) (log : list log_entry) :
  decode_message input = Ok message →
  process_body input ctx = Ok (out, log) →
  ∃ enriched label is_mutation,
    emits message ctx out enriched ∧
    let code := default (VStr "unknown") (field "op" message) in
    at_path ["enrichment"; "operation"; "code"] enriched = Some code ∧
    at_path ["enrichment"; "operation"; "label"] enriched = Some (VStr label) ∧
    at_path ["enrichment"; "operation"; "is_mutation"] enriched
      = Some (VBool is_mutation) ∧
    (code = VStr "c" → label = "CREATE") ∧
    (code = VStr "u" → label = "UPDATE") ∧
    (code = VStr "d" → label = "DELETE") ∧
    (code = VStr "r" → label = "READ") ∧
    (code ∉ VStr <$> ["c"; "u"; "d"; "r"] → label = "UNKNOWN") ∧
    (is_mutation = true ↔ code ∈ VStr <$> ["c"; "u"; "d"]).
Proof.
  intros Hdec Hbody.
  destruct (process_body_Ok _ _ _ _ _ Hdec Hbody) as ([enriched Hemits] & _).
  pose proof Hemits as (source & op & output & Henrich & _).
  apply enrich_Ok in Henrich
    as (d & operation & ts & sm & dq & ci & pm & -> & -> & _ & Hop & _ & _ & _ & _ & _ & ->).
  apply operation_group_Ok in Hop as (label & -> & Hc & Hu & Hd & Hr & Hother).
  eexists _, label, (in_str_list (default (VStr "unknown") (d !! "op")) ["c"; "u"; "d"]).
  split; [exact Hemits |]. simpl field.
  rewrite !at_path_group, assemble_operation. simpl.
  split_and!; try done.
  apply (in_str_list_elem_of _ ["c"; "u"; "d"]).
Qed.

Lemma truthy_dict (d : gmap string value) : truthy (VDict d) = true ↔ d ≠ ∅.
Proof.
  simpl. rewrite negb_true_iff, Nat.eqb_neq. by rewrite map_size_non_empty_iff.
Qed.

Lemma timestamps_group_Ok (ts_ms : value) (g : option value) :
  timestamps_group ts_ms = Ok g →
  (truthy ts_ms = false ∧ g = None) ∨
  (truthy ts_ms = true ∧ ∃ iso,
     g = Some (VDict (<["event_time_ms" := ts_ms]> (<["event_time_iso" := VStr iso]>
               (<["processing_time_iso" := VStr utcnow_iso]> ∅))))).
Proof.
  unfold timestamps_group. destruct (truthy ts_ms).
  - intros (iso & _ & [= <-])%bind_Ok. right. eauto.
  - intros [= <-]. by left.
Qed.

Lemma source_metadata_group_Ok (source : value) (g : option value) :
  source_metadata_group source = Ok g →
  (truthy source = false ∧ g = None) ∨
  (∃ src, source = VDict src ∧ src ≠ ∅ ∧
     g = Some (VDict (<["database" := default VNone (src !! "db")]>
               (<["schema" := default VNone (src !! "schema")]>
               (<["table" := default VNone (src !! "table")]>
               (<["connector" := default VNone (src !! "connector")]>
               (<["version" := default VNone (src !! "version")]>
               (<["is_snapshot" :=
                    VBool (eq_str (default VNone (src !! "snapshot")) "true")]> ∅)))))))).
Proof.
  unfold source_metadata_group. destruct (truthy source) eqn:Htruthy.
  - intros H. right.
    apply bind_Ok in H as (db & (src & -> & ->)%py_get_Ok & H).
    simpl in H. injection H as <-.
    exists src. split_and!; [done | by apply truthy_dict | done].
  - intros [= <-]. by left.
Qed.

Lemma eq_str_true (v : value) (s : string) : eq_str v s = true ↔ v = VStr s.
Proof.
  destruct v; simpl; try (split; [discriminate | intros [=]]).
  rewrite String.eqb_eq. split; [by intros -> | by intros [= ->]].
Qed.

(** C5: in a successfully processed envelope whose [source] is a non-empty
    mapping, [source_metadata.is_snapshot] is true exactly when
    [source.snapshot] is the string "true"; the boolean true, the string
    "True", the number 1 or a missing key all give false. *)
Theorem is_snapshot_exact_string (input : payload) (ctx : Context)
    (message : value) (out : list Byte.byte) (log : list log_entry)
    (src : gmap string value) :
  decode_message input = Ok message →
  process_body input ctx = Ok (out, log) →
  field "source" message = Some (VDict src) →
  src ≠ ∅ →
  ∃ enriched is_snapshot,
    emits message ctx out enriched ∧
    at_path ["enrichment"; "source_metadata"; "is_snapshot"] enriched
      = Some (VBool is_snapshot) ∧
    (is_snapshot = true ↔ src !! "snapshot" = Some (VStr "true")).
Proof.
  intros Hdec Hbody Hsource Hne.
  destruct (process_body_Ok _ _ _ _ _ Hdec Hbody) as ([enriched Hemits] & _).
  pose proof Hemits as (source & op & output & Henrich & _).
  apply enrich_Ok in Henrich
    as (d & operation & ts & sm & dq & ci & pm & -> & -> & -> & _ & _ & Hsm & _ & _ & _ & ->).
  simpl in Hsource. rewrite Hsource in Hsm. simpl in Hsm.
  apply source_metadata_group_Ok in Hsm as [[Hfalsy _] | (src' & [= <-] & _ & ->)].
  { apply truthy_dict in Hne. congruence. }
  eexists _, _. split; [exact Hemits |].
  rewrite at_path_group, assemble_source_metadata. simpl.
  split; [done |].
  rewrite eq_str_true. destruct (src !! "snapshot") as [v|]; simpl.
  - split; [by intros -> | by intros [= ->]].
  - split; discriminate.
Qed.

Lemma is_not_none_true (v : value) : is_not_none v = true ↔ v ≠ VNone.
Proof. destruct v; simpl; split; done. Qed.

Lemma data_quality_group_Ok (before after g : value) :
  data_quality_group before after = Ok g →
  ∃ field_count is_complete,
    g = VDict (<["has_before" := VBool (is_not_none before)]>
              (<["has_after" := VBool (is_not_none after)]>
              (<["field_count" := VInt field_count]>
              (<["is_complete" := VBool is_complete]> ∅)))) ∧
    (if truthy after then py_len after else Ok 0%Z) = Ok field_count ∧
    (if is_not_none after then n ← py_len after; Ok (0 <? n)%Z else Ok false)
      = Ok is_complete.
Proof.
  unfold data_quality_group. intros H.
  apply bind_Ok in H as (field_count & Hcount & H).
  apply bind_Ok in H as (is_complete & Hcomplete & [= <-]).
  by exists field_count, is_complete.
Qed.

(** What [message.get(key)] returns is not [None] exactly when the key is
    there with a value other than [null]. *)
Lemma present_non_null (d : gmap string value) (key : string) :
  is_not_none (default VNone (d !! key)) = true ↔
  ∃ v, d !! key = Some v ∧ v ≠ VNone.
Proof.
  rewrite is_not_none_true. destruct (d !! key) as [v|]; simpl.
  - split; [by exists v | by intros (? & [= <-] & ?)].
  - split; [done | by intros (? & [=] & _)].
Qed.

(** C7: every successfully processed envelope carries a [data_quality]
    group: [has_before] (resp. [has_after]) is true exactly when [before]
    (resp. [after]) is present and not null; when [after] is a mapping,
    [field_count] is its number of keys and [is_complete] tells whether it
    has at least one; when [after] is absent or null, [field_count] is 0
    and [is_complete] is false. *)
Theorem data_quality_always_emitted (input : payload) (ctx : Context)
    (message : value) (out : list Byte.byte) (log : list log_entry) :
  decode_message input = Ok message →
  process_body input ctx = Ok (out, log) →
  ∃ enriched has_before has_after field_count is_complete,
    emits message ctx out enriched ∧
    at_path ["enrichment"; "data_quality"; "has_before"] enriched
      = Some (VBool has_before) ∧
    at_path ["enrichment"; "data_quality"; "has_after"] enriched
      = Some (VBool has_after) ∧
    at_path ["enrichment"; "data_quality"; "field_count"] enriched
      = Some (VInt field_count) ∧
    at_path ["enrichment"; "data_quality"; "is_complete"] enriched
      = Some (VBool is_complete) ∧
    (has_before = true ↔ ∃ v, field "before" message = Some v ∧ v ≠ VNone) ∧
    (has_after = true ↔ ∃ v, field "after" message = Some v ∧ v ≠ VNone) ∧
    (∀ after, field "after" message = Some (VDict after) →
       field_count = Z.of_nat (size after) ∧
       (is_complete = true ↔ 0 < size after)) ∧
    (field "after" message = None ∨ field "after" message = Some VNone →
       field_count = 0%Z ∧ is_complete = false).
Proof.
  intros Hdec Hbody.
  destruct (process_body_Ok _ _ _ _ _ Hdec Hbody) as ([enriched Hemits] & _).
  pose proof Hemits as (source & op & output & Henrich & _).
  apply enrich_Ok in Henrich
    as (d & operation & ts & sm & dq & ci & pm & -> & _ & _ & _ & _ & _ & Hdq & _ & _ & ->).
  apply data_quality_group_Ok in Hdq as (field_count & is_complete & -> & Hcount & Hcomplete).
  eexists _, _, _, field_count, is_complete. split; [exact Hemits |].
  rewrite !at_path_group, assemble_data_quality. simpl field.
  split_and!; try done.
  - apply present_non_null.
  - apply present_non_null.
  - intros after Hafter. rewrite Hafter in Hcount, Hcomplete. simpl in Hcount, Hcomplete.
    injection Hcomplete as <-.
    destruct (Nat.eqb (size after) 0) eqn:Hsize; simpl in Hcount; injection Hcount as <-.
    + apply Nat.eqb_eq in Hsize. rewrite Hsize. split; [done |].
      rewrite Z.ltb_lt. lia.
    + split; [done |]. rewrite Z.ltb_lt. lia.
  - intros Hafter.
    assert (default VNone (d !! "after") = VNone) as Hnone
      by (destruct Hafter as [-> | ->]; done).
    rewrite Hnone in Hcount, Hcomplete. simpl in Hcount, Hcomplete.
    by injection Hcount as <-; injection Hcomplete as <-.
Qed.

(** C8: in a successfully processed envelope, no [timestamps] group is
    emitted when [ts_ms] is absent or falsy (null, zero, ...); when [ts_ms]
    is present and truthy, [timestamps.event_time_ms] is the raw value. *)
Theorem timestamps_only_when_truthy (input : payload) (ctx : Context)
    (message : value) (out : list Byte.byte) (log : list log_entry) :
  decode_message input = Ok message →
  process_body input ctx = Ok (out, log) →
  ∃ enriched,
    emits message ctx out enriched ∧
    (field "ts_ms" message = None ∨
     (∃ ts_ms, field "ts_ms" message = Some ts_ms ∧ truthy ts_ms = false) →
       at_path ["enrichment"; "timestamps"] enriched = None) ∧
    (∀ ts_ms, field "ts_ms" message = Some ts_ms → truthy ts_ms = true →
       at_path ["enrichment"; "timestamps"; "event_time_ms"] enriched = Some ts_ms).
Proof.
  intros Hdec Hbody.
  destruct (process_body_Ok _ _ _ _ _ Hdec Hbody) as ([enriched Hemits] & _).
  pose proof Hemits as (source & op & output & Henrich & _).
  apply enrich_Ok in Henrich
    as (d & operation & ts & sm & dq & ci & pm & -> & _ & _ & _ & Hts & _ & _ & _ & _ & ->).
  eexists. split; [exact Hemits |].
  rewrite !at_path_group, assemble_timestamps. simpl field.
  apply timestamps_group_Ok in Hts as [[Hfalsy ->] | (Htruthy & iso & ->)].
  - split; [done |]. intros ts_ms Hsome Htruthy.
    rewrite Hsome in Hfalsy. simpl in Hfalsy. congruence.
  - split.
    + intros [Hnone | (ts_ms & Hsome & Hfalsy)].
      * rewrite Hnone in Htruthy. discriminate.
      * rewrite Hsome in Htruthy. simpl in Htruthy. congruence.
    + intros ts_ms Hsome _. rewrite Hsome. done.
Qed.

Lemma processing_metadata_group_Ok (ctx : Context) (g : value) :
  processing_metadata_group ctx = Ok g →
  ∃ function_name function_version message_id topic partition_id,
    g = VDict (<["function_name" := function_name]>
              (<["function_version" := function_version]>
              (<["message_id" := message_id]>
              (<["topic" := topic]>
              (<["partition_id" := partition_id]> ∅))))) ∧
    capability_or (get_function_name ctx) (VStr "cdc-enrichment") = Ok function_name ∧
    capability_or (get_function_version ctx) (VStr "1.0") = Ok function_version ∧
    (get_message_id ctx = None → message_id = VNone) ∧
    capability_or (get_current_message_topic_name ctx) VNone = Ok topic ∧
    capability_or (get_partition_id ctx) VNone = Ok partition_id.
Proof.
  unfold processing_metadata_group. intros H.
  apply bind_Ok in H as (function_name & Hname & H).
  apply bind_Ok in H as (function_version & Hversion & H).
  apply bind_Ok in H as (message_id & Hid & H).
  apply bind_Ok in H as (topic & Htopic & H).
  apply bind_Ok in H as (partition_id & Hpartition & [= <-]).
  exists function_name, function_version, message_id, topic, partition_id.
  split_and!; try done.
  intros Hnone. rewrite Hnone in Hid. by injection Hid as <-.
Qed.

(** C9: in a successfully processed envelope the [processing_metadata]
    group is there, and each capability the context lacks gives its own
    fallback, whatever the other capabilities are: [function_name] falls
    back to "cdc-enrichment", [function_version] to "1.0", and [message_id],
    [topic] and [partition_id] to null. *)
Theorem missing_capability_fallbacks (input : payload) (ctx : Context)
    (message : value) (out : list Byte.byte) (log : list log_entry) :
  decode_message input = Ok message →
  process_body input ctx = Ok (out, log) →
  ∃ enriched metadata,
    emits message ctx out enriched ∧
    processing_metadata_group ctx = Ok metadata ∧
    at_path ["enrichment"; "processing_metadata"] enriched = Some metadata ∧
    (get_function_name ctx = None →
       field "function_name" metadata = Some (VStr "cdc-enrichment")) ∧
    (get_function_version ctx = None →
       field "function_version" metadata = Some (VStr "1.0")) ∧
    (get_message_id ctx = None → field "message_id" metadata = Some VNone) ∧
    (get_current_message_topic_name ctx = None →
       field "topic" metadata = Some VNone) ∧
    (get_partition_id ctx = None → field "partition_id" metadata = Some VNone).
Proof.
  intros Hdec Hbody.
  destruct (process_body_Ok _ _ _ _ _ Hdec Hbody) as ([enriched Hemits] & _).
  pose proof Hemits as (source & op & output & Henrich & _).
  apply enrich_Ok in Henrich
    as (d & operation & ts & sm & dq & ci & pm & -> & _ & _ & _ & _ & _ & _ & _ & Hpm & ->).
  eexists _, pm. split; [exact Hemits |]. split; [exact Hpm |].
  rewrite at_path_group, assemble_processing_metadata.
  apply processing_metadata_group_Ok in Hpm
    as (name & version & id & topic & partition & -> & Hname & Hversion & Hid
        & Htopic & Hpartition).
  simpl. split_and!; try done.
  - intros Hnone. rewrite Hnone in Hname. by injection Hname as <-.
  - intros Hnone. rewrite Hnone in Hversion. by injection Hversion as <-.
  - intros Hnone. by rewrite (Hid Hnone).
  - intros Hnone. rewrite Hnone in Htopic. by injection Htopic as <-.
  - intros Hnone. rewrite Hnone in Hpartition. by injection Hpartition as <-.
Qed.

(** C2: when the input decodes to [message] and processing succeeds, what
    [process] returns is the UTF-8 encoding of [json.dumps(enriched, indent=2)]
    for a document [enriched] with exactly the two keys [original] and
    [enrichment], whose [original] is [message] itself. *)
Theorem output_wraps_original (input : payload) (ctx : Context)
    (message : value) (out : list Byte.byte) (log : list log_entry) :
  decode_message input = Ok message →
  process_body input ctx = Ok (out, log) →
  ∃ (doc enrichment : gmap string value) (output : string),
    emits message ctx out (VDict doc) ∧
    json_dumps 2 (VDict doc) = Ok output ∧
    process input ctx = (Returned (Bytes (utf8_encode output)), log) ∧
    dom doc = {["original"; "enrichment"]} ∧
    doc !! "original" = Some message ∧
    doc !! "enrichment" = Some (VDict enrichment).
Proof.
  intros Hdec Hbody.
  destruct (process_body_Ok _ _ _ _ _ Hdec Hbody)
    as ([enriched Hemits] & _ & _ & Hprocess).
  pose proof Hemits as (source & op & output & Henrich & Hdumps & ->).
  apply enrich_Ok in Henrich
    as (d & operation & ts & sm & dq & ci & pm & -> & _ & _ & _ & _ & _ & _ & _ & _ & ->).
  eexists _, _, output. split; [exact Hemits |].
  split_and!; done.
Qed.

Lemma append_empty_r (s : string) : s ++ "" = s.
Proof.
  induction s as [| c s IH]; [done |].
  change (String c (s ++ "") = String c s). by rewrite IH.
Qed.

Lemma str_contains_at_cons (c : ascii) (s : string) :
  str_contains "@" (String c s) = Ascii.eqb c "@" || str_contains "@" s.
Proof.
  change (str_contains "@" (String c s))
    with (String.prefix "@" (String c s) || str_contains "@" s).
  f_equal.
  change (String.prefix "@" (String c s))
    with (if ascii_dec "@" c then String.prefix "" s else false).
  destruct (ascii_dec "@" c) as [<- | Hne].
  - by destruct s.
  - symmetry. apply Ascii.eqb_neq. congruence.
Qed.

(** The first piece of [s.split("@")] is the text before the first [@];
    the other pieces come from the text after it. *)
Lemma split_on_head (s : string) :
  ∃ h rest,
    str_contains "@" h = false ∧ s = h ++ rest ∧
    ((rest = "" ∧ split_on "@" s = [h]) ∨
     (∃ r, rest = String "@" r ∧ split_on "@" s = h :: split_on "@" r)).
Proof.
  induction s as [| c s IH].
  - exists "", "". split_and!; [done | done | by left].
  - destruct (Ascii.eqb_spec c "@") as [-> | Hne].
    + exists "", (String "@" s). split_and!; [done | done |]. right. by exists s.
    + destruct IH as (h & rest & Hh & -> & Hrest).
      exists (String c h), rest. split_and!.
      * rewrite str_contains_at_cons, Hh.
        by destruct (Ascii.eqb_spec c "@").
      * done.
      * simpl. destruct (Ascii.eqb_spec c "@") as [| _]; [done |].
        destruct Hrest as [[-> ->] | (r & -> & ->)]; [by left | right; by exists r].
Qed.

(** The second piece of [s.split("@")], when [s] contains [@], is the text
    between the first [@] and the next one, or the end of [s]. *)
Lemma split_on_second (s : string) :
  str_contains "@" s = true →
  ∃ pre domain rest,
    s = pre ++ "@" ++ domain ++ rest ∧
    str_contains "@" pre = false ∧
    str_contains "@" domain = false ∧
    (rest = "" ∨ ∃ r, rest = String "@" r) ∧
    split_on "@" s !! 1 = Some domain.
Proof.
  intros Hat.
  destruct (split_on_head s) as (pre & rest & Hpre & -> & [[-> Hs] | (r & -> & Hs)]).
  { rewrite append_empty_r in Hat. congruence. }
  destruct (split_on_head r) as (domain & rest & Hdomain & -> & Hrest).
  exists pre, domain, rest. split_and!; try done.
  - destruct Hrest as [[-> _] | (r' & -> & _)]; eauto.
  - rewrite Hs. simpl. by destruct Hrest as [[_ ->] | (r' & _ & ->)].
Qed.

Lemma customer_insights_group_Ok (after : value) (g : option value) :
  customer_insights_group after = Ok g →
  (g = None ∧ (truthy after = false ∨ py_contains "email" after = Ok false)) ∨
  (truthy after = true ∧ py_contains "email" after = Ok true ∧
   ∃ email has_at email_domain email_length,
     py_get after "email" (VStr "") = Ok email ∧
     py_contains "@" email = Ok has_at ∧
     (if has_at : bool
      then parts ← py_split email "@"%char; py_index parts 1
      else Ok VNone) = Ok email_domain ∧
     py_len email = Ok email_length ∧
     g = Some (VDict (<["email_domain" := email_domain]>
               (<["has_email" := VBool (truthy email)]>
               (<["email_length" := VInt email_length]> ∅))))).
Proof.
  unfold customer_insights_group. intros H.
  apply bind_Ok in H as (has_key & Hkey & H).
  destruct has_key.
  - right. destruct (truthy after); [| discriminate].
    apply bind_Ok in H as (email & Hemail & H).
    apply bind_Ok in H as (has_at & Hat & H).
    apply bind_Ok in H as (email_domain & Hdomain & H).
    apply bind_Ok in H as (email_length & Hlen & [= <-]).
    split_and!; try done.
    by exists email, has_at, email_domain, email_length.
  - left. injection H as <-. split; [done |].
    destruct (truthy after); [by right | by left].
Qed.

(** C3, as the code has it: for a successfully processed envelope whose
    [after] mapping holds a string under [email], [email_domain] is null when
    the string has no [@]; when it has one, [email_domain] is the text
    between the first [@] and the next [@], or the end of the string when
    there is no other [@] (so "b" for "a@b@c", and "b.com" for "a@b.com"). *)
Theorem email_domain_second_piece (input : payload) (ctx : Context)
    (message : value) (out : list Byte.byte) (log : list log_entry)
    (after : gmap string value) (email : string) :
  decode_message input = Ok message →
  process_body input ctx = Ok (out, log) →
  field "after" message = Some (VDict after) →
  after !! "email" = Some (VStr email) →
  ∃ enriched email_domain,
    emits message ctx out enriched ∧
    at_path ["enrichment"; "customer_insights"; "email_domain"] enriched
      = Some email_domain ∧
    (str_contains "@" email = false → email_domain = VNone) ∧
    (str_contains "@" email = true →
     ∃ pre domain rest,
       email = pre ++ "@" ++ domain ++ rest ∧
       str_contains "@" pre = false ∧
       str_contains "@" domain = false ∧
       (rest = "" ∨ ∃ r, rest = String "@" r) ∧
       email_domain = VStr domain).
Proof.
  intros Hdec Hbody Hafter Hemail.
  destruct (process_body_Ok _ _ _ _ _ Hdec Hbody) as ([enriched Hemits] & _).
  pose proof Hemits as (source & op & output & Henrich & _).
  apply enrich_Ok in Henrich
    as (d & operation & ts & sm & dq & ci & pm & -> & _ & _ & _ & _ & _ & _ & Hci & _ & ->).
  simpl in Hafter. rewrite Hafter in Hci. simpl default in Hci.
  apply customer_insights_group_Ok in Hci
    as [[_ [Hfalsy | Hno_key]]
       | (_ & _ & email' & has_at & email_domain & n & Hget & Hat & Hdomain & _ & ->)].
  - simpl in Hfalsy. apply negb_false_iff, Nat.eqb_eq, map_size_empty_iff in Hfalsy.
    by rewrite Hfalsy in Hemail.
  - simpl in Hno_key. rewrite Hemail in Hno_key.
    by rewrite bool_decide_eq_true_2 in Hno_key by eauto.
  - simpl in Hget. rewrite Hemail in Hget. injection Hget as <-.
    simpl in Hat. injection Hat as <-.
    eexists _, email_domain. split; [exact Hemits |].
    rewrite at_path_group, assemble_customer_insights. simpl.
    split; [done |]. split.
    + intros Hno. rewrite Hno in Hdomain. by injection Hdomain as <-.
    + intros Hyes. rewrite Hyes in Hdomain. simpl in Hdomain.
      destruct (split_on_second email Hyes)
        as (pre & domain & rest & Heq & Hpre & Hdom & Hrest & Hsecond).
      unfold py_index in Hdomain. rewrite Hsecond in Hdomain.
      injection Hdomain as <-. by exists pre, domain, rest.
Qed.

(** With a logger, an exception of the [try] body is logged once and the
    input handed back. *)
Lemma process_body_Raise (input : payload) (ctx : Context) (e : exn) :
  has_logger ctx = true →
  process_body input ctx = Raise e →
  process input ctx = (Returned input, [LogError (error_line e)]).
Proof.
  intros Hlogger Hbody. unfold process, get_logger.
  by rewrite Hbody, Hlogger.
Qed.

(** The stages of the [try] body at which an exception can come up. *)
Lemma process_body_stages (input : payload) (ctx : Context) (e : exn) :
  has_logger ctx = true →
  (decode_message input = Raise e ∨
   ∃ message, decode_message input = Ok message ∧
     (enrich message ctx = Raise e ∨
      ∃ enriched source op, enrich message ctx = Ok (enriched, source, op) ∧
        (json_dumps 2 enriched = Raise e ∨
         ∃ output, json_dumps 2 enriched = Ok output ∧
                   info_line source op = Raise e))) →
  process_body input ctx = Raise e.
Proof.
  intros Hlogger H. unfold process_body.
  destruct H as [-> | (message & -> & H)]; [done |]. simpl.
  destruct H as [-> | (enriched & source & op & -> & H)]; [done |]. simpl.
  destruct H as [-> | (output & -> & Hline)]; [done |]. simpl.
  unfold get_logger. by rewrite Hlogger, Hline.
Qed.

(** C1, as the code has it: when the context provides a logger, an
    exception raised while decoding, while computing the enrichment, while
    serialising, or while composing the info line is caught: [process] logs
    exactly one error line, which ends with the message of the exception,
    logs no info line, and returns the input it was given, text as text and
    bytes as bytes. *)
Theorem fail_open_with_logger (input : payload) (ctx : Context) (e : exn) :
  has_logger ctx = true →
  (decode_message input = Raise e ∨
   ∃ message, decode_message input = Ok message ∧
     (enrich message ctx = Raise e ∨
      ∃ enriched source op, enrich message ctx = Ok (enriched, source, op) ∧
        (json_dumps 2 enriched = Raise e ∨
         ∃ output, json_dumps 2 enriched = Ok output ∧
                   info_line source op = Raise e))) →
  process input ctx
  = (Returned input, [LogError ("Error processing message: " ++ exn_msg e)]).
Proof.
  intros Hlogger Hstage.
  apply (process_body_Raise input ctx e Hlogger).
  by apply process_body_stages.
Qed.

(** Once [message.get] has worked, [enrich] is the sequence of its groups. *)
Lemma enrich_dict (d : gmap string value) (ctx : Context) :
  enrich (VDict d) ctx =
    let op := default (VStr "unknown") (d !! "op") in
    let source := default (VDict ∅) (d !! "source") in
    let after := default VNone (d !! "after") in
    operation ← operation_group op;
    timestamps ← timestamps_group (default VNone (d !! "ts_ms"));
    source_metadata ← source_metadata_group source;
    data_quality ← data_quality_group (default VNone (d !! "before")) after;
    customer_insights ← customer_insights_group after;
    processing_metadata ← processing_metadata_group ctx;
    Ok (VDict (<["original" := VDict d]> (<["enrichment" :=
          VDict (assemble operation timestamps source_metadata data_quality
                          customer_insights processing_metadata)]> ∅)),
        source, op).
Proof. done. Qed.

(** An exception in one group is an exception of [enrich]: the one of the
    first group that raises. *)
Lemma enrich_group_raises (d : gmap string value) (ctx : Context) (e : exn) :
  operation_group (default (VStr "unknown") (d !! "op")) = Raise e ∨
  timestamps_group (default VNone (d !! "ts_ms")) = Raise e ∨
  source_metadata_group (default (VDict ∅) (d !! "source")) = Raise e ∨
  data_quality_group (default VNone (d !! "before"))
                     (default VNone (d !! "after")) = Raise e ∨
  customer_insights_group (default VNone (d !! "after")) = Raise e ∨
  processing_metadata_group ctx = Raise e →
  ∃ e', enrich (VDict d) ctx = Raise e'.
Proof.
  intros H. rewrite enrich_dict. cbv zeta.
  destruct (operation_group _) as [operation |]; simpl; [| eauto].
  destruct (timestamps_group _) as [timestamps |]; simpl; [| eauto].
  destruct (source_metadata_group _) as [source_metadata |]; simpl; [| eauto].
  destruct (data_quality_group _ _) as [data_quality |]; simpl; [| eauto].
  destruct (customer_insights_group _) as [customer_insights |]; simpl; [| eauto].
  destruct (processing_metadata_group _) as [processing_metadata |]; simpl; [| eauto].
  destruct H as [H | [H | [H | [H | [H | H]]]]]; discriminate.
Qed.

(** C4, as the code has it: the groups are computed one after the other
    inside one [try].  A precondition that does not hold leaves out its own
    group only: a successfully processed envelope always carries [operation],
    [data_quality] and [processing_metadata], and carries [timestamps],
    [source_metadata] and [customer_insights] exactly when [ts_ms] is truthy,
    [source] is truthy, and [after] is truthy and contains [email].  An
    exception in any one group leaves out all of them: with a logger the
    original input is returned and one error line is logged. *)
Theorem groups_all_or_nothing (input : payload) (ctx : Context)
    (d : gmap string value) :
  has_logger ctx = true →
  decode_message input = Ok (VDict d) →
  let op := default (VStr "unknown") (d !! "op") in
  let ts_ms := default VNone (d !! "ts_ms") in
  let source := default (VDict ∅) (d !! "source") in
  let before := default VNone (d !! "before") in
  let after := default VNone (d !! "after") in
  (∀ out log, process_body input ctx = Ok (out, log) →
     ∃ enriched,
       emits (VDict d) ctx out enriched ∧
       is_Some (at_path ["enrichment"; "operation"] enriched) ∧
       is_Some (at_path ["enrichment"; "data_quality"] enriched) ∧
       is_Some (at_path ["enrichment"; "processing_metadata"] enriched) ∧
       (is_Some (at_path ["enrichment"; "timestamps"] enriched) ↔
          truthy ts_ms = true) ∧
       (is_Some (at_path ["enrichment"; "source_metadata"] enriched) ↔
          truthy source = true) ∧
       (is_Some (at_path ["enrichment"; "customer_insights"] enriched) ↔
          truthy after = true ∧ py_contains "email" after = Ok true)) ∧
  (∀ e,
     operation_group op = Raise e ∨
     timestamps_group ts_ms = Raise e ∨
     source_metadata_group source = Raise e ∨
     data_quality_group before after = Raise e ∨
     customer_insights_group after = Raise e ∨
     processing_metadata_group ctx = Raise e →
     ∃ e', process_body input ctx = Raise e' ∧
           process input ctx = (Returned input, [LogError (error_line e')])).
Proof.
  intros Hlogger Hdec op ts_ms source before after.
  subst op ts_ms source before after. split.
  - intros out log Hbody.
    destruct (process_body_Ok _ _ _ _ _ Hdec Hbody) as ([enriched Hemits] & _).
    pose proof Hemits as (source' & op' & output & Henrich & _).
    apply enrich_Ok in Henrich
      as (d' & operation & ts & sm & dq & ci & pm & [= <-] & -> & -> & _ & Hts & Hsm
          & _ & Hci & _ & ->).
    eexists. split; [exact Hemits |].
    rewrite !at_path_group, assemble_operation, assemble_data_quality,
      assemble_processing_metadata, assemble_timestamps, assemble_source_metadata,
      assemble_customer_insights.
    simpl. split_and!; try done.
    + apply timestamps_group_Ok in Hts as [[Hfalsy ->] | (Htruthy & iso & ->)].
      * rewrite Hfalsy. split; [by intros [? [=]] | done].
      * done.
    + apply source_metadata_group_Ok in Hsm as [[Hfalsy ->] | (src & Hsrc & Hne & ->)].
      * rewrite Hfalsy. split; [by intros [? [=]] | done].
      * split; [| done]. intros _. rewrite Hsrc.
        by apply truthy_dict.
    + apply customer_insights_group_Ok in Hci
        as [[-> Hno] | (Htruthy & Hkey & email & has_at & dom & n & _ & _ & _ & _ & ->)].
      * split; [by intros [? [=]] |]. intros [Htruthy Hkey].
        destruct Hno; congruence.
      * done.
  - intros e Hgroup.
    destruct (enrich_group_raises d ctx e Hgroup) as [e' Henrich].
    assert (process_body input ctx = Raise e') as Hbody.
    { apply process_body_stages; [done |]. right. exists (VDict d). eauto. }
    exists e'. split; [done |]. by apply process_body_Raise.
Qed.

Lemma existsb_eq_str (needle : string) (l : list value) :
  existsb (λ x, eq_str x needle) l = true ↔ VStr needle ∈ l.
Proof.
  rewrite existsb_exists. split.
  - intros (x & Hin & ->%eq_str_true). by apply list_elem_of_In.
  - intros Hin. exists (VStr needle). split; [by apply list_elem_of_In |].
    by apply eq_str_true.
Qed.

(** C10, as the code has it: when the [after] mapping holds under [email]
    a value that is not a string and in which [@] cannot be looked up and
    then split off (null, a boolean, a number, a list with the element [@],
    a mapping with the key [@]), and the context provides a logger, the
    [try] body raises: no document is built, the original input is returned
    and one error line is logged. *)
Theorem unusable_email_fails_open (input : payload) (ctx : Context)
    (d after : gmap string value) (email : value) :
  has_logger ctx = true →
  decode_message input = Ok (VDict d) →
  d !! "after" = Some (VDict after) →
  after !! "email" = Some email →
  (∀ s, email ≠ VStr s) →
  (∀ l, email = VList l → VStr "@" ∈ l) →
  (∀ m, email = VDict m → is_Some (m !! "@")) →
  ∃ e, process_body input ctx = Raise e ∧
       process input ctx = (Returned input, [LogError (error_line e)]).
Proof.
  intros Hlogger Hdec Hafter Hemail Hstr Hlist Hdict.
  assert (∃ e, customer_insights_group (VDict after) = Raise e) as [e He].
  { unfold customer_insights_group.
    assert (truthy (VDict after) = true) as ->.
    { apply truthy_dict. intros ->. by rewrite lookup_empty in Hemail. }
    change (py_contains "email" (VDict after))
      with (Ok (bool_decide (is_Some (after !! "email")))).
    rewrite bool_decide_eq_true_2 by (rewrite Hemail; eauto).
    change (py_get (VDict after) "email" (VStr ""))
      with (Ok (default (VStr "") (after !! "email"))).
    rewrite Hemail. simpl.
    destruct email as [| b | z | f | s | l | m]; simpl; eauto.
    - by destruct (Hstr s).
    - specialize (Hlist l eq_refl). apply existsb_eq_str in Hlist.
      rewrite Hlist. simpl. eauto.
    - rewrite bool_decide_eq_true_2 by eauto. simpl. eauto. }
  assert (∃ e', enrich (VDict d) ctx = Raise e') as [e' Henrich].
  { apply (enrich_group_raises d ctx e). rewrite Hafter. simpl. tauto. }
  assert (process_body input ctx = Raise e') as Hbody.
  { apply process_body_stages; [done |]. right. exists (VDict d). eauto. }
  exists e'. split; [done |]. by apply process_body_Raise.
Qed.

End Properties.

(** ** The theorems at concrete events

    All with the stub runtime and the events of the table above. *)

Section Examples.
#[local] Existing Instance test_runtime.

(** The [operation] group of the order update. *)
Lemma operation_group_follows_table_witness :
  decode_message (Text order_update_text) = Ok order_update ∧
  process_body (Text order_update_text) full_context
    = Ok (list_byte_of_string "{}", [LogInfo "Enriched message from orders - op: u"]) ∧
  ∃ enriched label is_mutation,
    emits order_update full_context (list_byte_of_string "{}") enriched ∧
    let code := default (VStr "unknown") (field "op" order_update) in
    at_path ["enrichment"; "operation"; "code"] enriched = Some code ∧
    at_path ["enrichment"; "operation"; "label"] enriched = Some (VStr label) ∧
    at_path ["enrichment"; "operation"; "is_mutation"] enriched
      = Some (VBool is_mutation) ∧
    (code = VStr "c" → label = "CREATE") ∧
    (code = VStr "u" → label = "UPDATE") ∧
    (code = VStr "d" → label = "DELETE") ∧
    (code = VStr "r" → label = "READ") ∧
    (code ∉ VStr <$> ["c"; "u"; "d"; "r"] → label = "UNKNOWN") ∧
    (is_mutation = true ↔ code ∈ VStr <$> ["c"; "u"; "d"]).
Proof.
  split; [vm_compute; reflexivity |].
  split; [vm_compute; reflexivity |].
  apply (operation_group_follows_table (Text order_update_text) full_context
           order_update _ [LogInfo "Enriched message from orders - op: u"]);
    vm_compute; reflexivity.
Defined.

(** Text that is not JSON, with a logger: passed through, one error line. *)
Lemma fail_open_with_logger_witness :
  has_logger logger_only_context = true ∧
  decode_message (Text "not json")
    = Raise (Exn "JSONDecodeError" "Expecting value: line 1 column 1 (char 0)") ∧
  process (Text "not json") logger_only_context
    = (Returned (Text "not json"),
       [LogError "Error processing message: Expecting value: line 1 column 1 (char 0)"]).
Proof.
  split; [reflexivity |]. split; [reflexivity |].
  apply (fail_open_with_logger (Text "not json") logger_only_context
           (Exn "JSONDecodeError" "Expecting value: line 1 column 1 (char 0)"));
    [reflexivity | left; reflexivity].
Defined.

(** C1 fails without a logger: the handler itself raises. *)
Lemma fail_open_needs_logger :
  decode_message (Text "not json")
    = Raise (Exn "JSONDecodeError" "Expecting value: line 1 column 1 (char 0)") ∧
  process (Text "not json") no_logger_context
    = (Propagated (AttributeError "object" "get_logger"), []).
Proof. split; vm_compute; reflexivity. Qed.

(** The document built for the order update. *)
Lemma output_wraps_original_witness :
  decode_message (Text order_update_text) = Ok order_update ∧
  process_body (Text order_update_text) full_context = Ok (stub_out, order_log) ∧
  ∃ (doc enrichment : gmap string value) (output : string),
    emits order_update full_context stub_out (VDict doc) ∧
    json_dumps 2 (VDict doc) = Ok output ∧
    process (Text order_update_text) full_context
      = (Returned (Bytes (utf8_encode output)), order_log) ∧
    dom doc = {["original"; "enrichment"]} ∧
    doc !! "original" = Some order_update ∧
    doc !! "enrichment" = Some (VDict enrichment).
Proof.
  split; [vm_compute; reflexivity |].
  split; [vm_compute; reflexivity |].
  apply (output_wraps_original (Text order_update_text) full_context
           order_update stub_out order_log); vm_compute; reflexivity.
Defined.

(** The address of the order update has one [@]. *)
Lemma email_domain_second_piece_witness :
  decode_message (Text order_update_text) = Ok order_update ∧
  process_body (Text order_update_text) full_context = Ok (stub_out, order_log) ∧
  field "after" order_update
    = Some (VDict (<["status" := VStr "shipped"]> (<["email" := VStr "x@y.com"]> ∅))) ∧
  (<["status" := VStr "shipped"]> (<["email" := VStr "x@y.com"]> ∅) : gmap string value)
    !! "email" = Some (VStr "x@y.com") ∧
  ∃ enriched email_domain,
    emits order_update full_context stub_out enriched ∧
    at_path ["enrichment"; "customer_insights"; "email_domain"] enriched
      = Some email_domain ∧
    (str_contains "@" "x@y.com" = false → email_domain = VNone) ∧
    (str_contains "@" "x@y.com" = true →
     ∃ pre domain rest,
       "x@y.com" = pre ++ "@" ++ domain ++ rest ∧
       str_contains "@" pre = false ∧
       str_contains "@" domain = false ∧
       (rest = "" ∨ ∃ r, rest = String "@" r) ∧
       email_domain = VStr domain).
Proof.
  split; [vm_compute; reflexivity |].
  split; [vm_compute; reflexivity |].
  split; [vm_compute; reflexivity |].
  split; [vm_compute; reflexivity |].
  apply (email_domain_second_piece (Text order_update_text) full_context
           order_update stub_out order_log
           (<["status" := VStr "shipped"]> (<["email" := VStr "x@y.com"]> ∅))
           "x@y.com"); vm_compute; reflexivity.
Defined.

(** C3 fails on an address with two [@]: the piece between them is emitted,
    not the text after the first one. *)
Lemma email_domain_of_two_ats :
  decode_message (Text two_at_email_text) = Ok two_at_email ∧
  at_path ["after"; "email"] two_at_email = Some (VStr "a@b@c") ∧
  process (Text two_at_email_text) full_context
    = (Returned (Bytes stub_out), [LogInfo "Enriched message from unknown - op: unknown"]) ∧
  emitted_at two_at_email full_context
    ["enrichment"; "customer_insights"; "email_domain"] = Ok (Some (VStr "b")) ∧
  VStr "b" ≠ VStr "b@c".
Proof. split_and!; [vm_compute; reflexivity.. | discriminate]. Qed.

(** C4 fails on an event whose [source] is a string: the [operation] group
    alone would have been computed, but nothing is emitted. *)
Lemma string_source_suppresses_all_groups :
  decode_message (Text string_source_text) = Ok string_source ∧
  field "source" string_source = Some (VStr "x") ∧
  source_metadata_group (VStr "x") = Raise (AttributeError "str" "get") ∧
  enrich string_source full_context = Raise (AttributeError "str" "get") ∧
  process (Text string_source_text) full_context
    = (Returned (Text string_source_text),
       [LogError "Error processing message: 'str' object has no attribute 'get'"]).
Proof. split_and!; vm_compute; reflexivity. Qed.

(** A string under [source] makes [source_metadata] raise, and with it the
    whole run. *)
Lemma groups_all_or_nothing_witness :
  has_logger full_context = true ∧
  decode_message (Text string_source_text)
    = Ok (VDict (<["source" := VStr "x"]> ∅)) ∧
  source_metadata_group (VStr "x") = Raise (AttributeError "str" "get") ∧
  ∃ e', process_body (Text string_source_text) full_context = Raise e' ∧
        process (Text string_source_text) full_context
          = (Returned (Text string_source_text), [LogError (error_line e')]).
Proof.
  assert (decode_message (Text string_source_text)
            = Ok (VDict (<["source" := VStr "x"]> ∅))) as Hdec
    by (vm_compute; reflexivity).
  split; [reflexivity |]. split; [exact Hdec |].
  split; [reflexivity |].
  destruct (groups_all_or_nothing (Text string_source_text) full_context
              (<["source" := VStr "x"]> ∅) eq_refl Hdec) as [_ Hraise].
  apply (Hraise (AttributeError "str" "get")).
  right. right. left. vm_compute. reflexivity.
Defined.

(** The order update is no snapshot. *)
Lemma is_snapshot_exact_string_witness :
  let src : gmap string value :=
    <["db" := VStr "sales"]> (<["table" := VStr "orders"]>
    (<["snapshot" := VStr "false"]> ∅)) in
  decode_message (Text order_update_text) = Ok order_update ∧
  process_body (Text order_update_text) full_context = Ok (stub_out, order_log) ∧
  field "source" order_update = Some (VDict src) ∧
  src ≠ ∅ ∧
  ∃ enriched is_snapshot,
    emits order_update full_context stub_out enriched ∧
    at_path ["enrichment"; "source_metadata"; "is_snapshot"] enriched
      = Some (VBool is_snapshot) ∧
    (is_snapshot = true ↔ src !! "snapshot" = Some (VStr "true")).
Proof.
  intros src.
  assert (src ≠ ∅) as Hne by (intros H%(f_equal size); vm_compute in H; lia).
  split; [vm_compute; reflexivity |].
  split; [vm_compute; reflexivity |].
  split; [vm_compute; reflexivity |].
  split; [exact Hne |].
  apply (is_snapshot_exact_string (Text order_update_text) full_context
           order_update stub_out order_log src);
    [vm_compute; reflexivity.. | exact Hne].
Defined.

(** The [data_quality] group of the order update. *)
Lemma data_quality_always_emitted_witness :
  decode_message (Text order_update_text) = Ok order_update ∧
  process_body (Text order_update_text) full_context = Ok (stub_out, order_log) ∧
  ∃ enriched has_before has_after field_count is_complete,
    emits order_update full_context stub_out enriched ∧
    at_path ["enrichment"; "data_quality"; "has_before"] enriched
      = Some (VBool has_before) ∧
    at_path ["enrichment"; "data_quality"; "has_after"] enriched
      = Some (VBool has_after) ∧
    at_path ["enrichment"; "data_quality"; "field_count"] enriched
      = Some (VInt field_count) ∧
    at_path ["enrichment"; "data_quality"; "is_complete"] enriched
      = Some (VBool is_complete) ∧
    (has_before = true ↔ ∃ v, field "before" order_update = Some v ∧ v ≠ VNone) ∧
    (has_after = true ↔ ∃ v, field "after" order_update = Some v ∧ v ≠ VNone) ∧
    (∀ after, field "after" order_update = Some (VDict after) →
       field_count = Z.of_nat (size after) ∧
       (is_complete = true ↔ 0 < size after)) ∧
    (field "after" order_update = None ∨ field "after" order_update = Some VNone →
       field_count = 0%Z ∧ is_complete = false).
Proof.
  split; [vm_compute; reflexivity |].
  split; [vm_compute; reflexivity |].
  apply (data_quality_always_emitted (Text order_update_text) full_context
           order_update stub_out order_log); vm_compute; reflexivity.
Defined.

(** The order update has a timestamp. *)
Lemma timestamps_only_when_truthy_witness :
  decode_message (Text order_update_text) = Ok order_update ∧
  process_body (Text order_update_text) full_context = Ok (stub_out, order_log) ∧
  ∃ enriched,
    emits order_update full_context stub_out enriched ∧
    (field "ts_ms" order_update = None ∨
     (∃ ts_ms, field "ts_ms" order_update = Some ts_ms ∧ truthy ts_ms = false) →
       at_path ["enrichment"; "timestamps"] enriched = None) ∧
    (∀ ts_ms, field "ts_ms" order_update = Some ts_ms → truthy ts_ms = true →
       at_path ["enrichment"; "timestamps"; "event_time_ms"] enriched = Some ts_ms).
Proof.
  split; [vm_compute; reflexivity |].
  split; [vm_compute; reflexivity |].
  apply (timestamps_only_when_truthy (Text order_update_text) full_context
           order_update stub_out order_log); vm_compute; reflexivity.
Defined.

(** The order update in a context that only has a logger. *)
Lemma missing_capability_fallbacks_witness :
  decode_message (Text order_update_text) = Ok order_update ∧
  process_body (Text order_update_text) logger_only_context
    = Ok (stub_out, order_log) ∧
  ∃ enriched metadata,
    emits order_update logger_only_context stub_out enriched ∧
    processing_metadata_group logger_only_context = Ok metadata ∧
    at_path ["enrichment"; "processing_metadata"] enriched = Some metadata ∧
    (get_function_name logger_only_context = None →
       field "function_name" metadata = Some (VStr "cdc-enrichment")) ∧
    (get_function_version logger_only_context = None →
       field "function_version" metadata = Some (VStr "1.0")) ∧
    (get_message_id logger_only_context = None →
       field "message_id" metadata = Some VNone) ∧
    (get_current_message_topic_name logger_only_context = None →
       field "topic" metadata = Some VNone) ∧
    (get_partition_id logger_only_context = None →
       field "partition_id" metadata = Some VNone).
Proof.
  split; [vm_compute; reflexivity |].
  split; [vm_compute; reflexivity |].
  apply (missing_capability_fallbacks (Text order_update_text) logger_only_context
           order_update stub_out order_log); vm_compute; reflexivity.
Defined.

(** C10 fails on an empty list under [email]: ["@" in []] is false, the
    list has a length, and the event is enriched. *)
Lemma list_email_is_enriched :
  decode_message (Text list_email_text) = Ok list_email ∧
  at_path ["after"; "email"] list_email = Some (VList []) ∧
  process (Text list_email_text) full_context
    = (Returned (Bytes stub_out),
       [LogInfo "Enriched message from unknown - op: unknown"]) ∧
  emitted_at list_email full_context ["enrichment"; "customer_insights"]
    = Ok (Some (VDict (<["email_domain" := VNone]> (<["has_email" := VBool false]>
                      (<["email_length" := VInt 0]> ∅))))).
Proof. split_and!; vm_compute; reflexivity. Qed.

(** A [null] address, with a logger: passed through, one error line. *)
Lemma unusable_email_fails_open_witness :
  let after : gmap string value := <["email" := VNone]> ∅ in
  let d : gmap string value := <["after" := VDict after]> ∅ in
  has_logger logger_only_context = true ∧
  decode_message (Text null_email_text) = Ok (VDict d) ∧
  d !! "after" = Some (VDict after) ∧
  after !! "email" = Some VNone ∧
  (∀ s, VNone ≠ VStr s) ∧
  (∀ l, VNone = VList l → VStr "@" ∈ l) ∧
  (∀ m : gmap string value, VNone = VDict m → is_Some (m !! "@")) ∧
  ∃ e, process_body (Text null_email_text) logger_only_context = Raise e ∧
       process (Text null_email_text) logger_only_context
         = (Returned (Text null_email_text), [LogError (error_line e)]).
Proof.
  intros after d.
  split; [reflexivity |]. split; [vm_compute; reflexivity |].
  split; [vm_compute; reflexivity |]. split; [vm_compute; reflexivity |].
  split; [discriminate |]. split; [discriminate |]. split; [discriminate |].
  apply (unusable_email_fails_open (Text null_email_text) logger_only_context
           d after VNone);
    [reflexivity | vm_compute; reflexivity | vm_compute; reflexivity
    | vm_compute; reflexivity | discriminate..].
Defined.

(** The order update, group by group. *)
Example order_update_enriched :
  process (Text order_update_text) full_context = (Returned (Bytes stub_out), order_log) ∧
  emitted_at order_update full_context ["original"] = Ok (Some order_update) ∧
  emitted_at order_update full_context ["enrichment"; "operation"; "label"]
    = Ok (Some (VStr "UPDATE")) ∧
  emitted_at order_update full_context ["enrichment"; "operation"; "is_mutation"]
    = Ok (Some (VBool true)) ∧
  emitted_at order_update full_context ["enrichment"; "timestamps"; "event_time_ms"]
    = Ok (Some (VInt 1700000000000)) ∧
  emitted_at order_update full_context ["enrichment"; "source_metadata"; "is_snapshot"]
    = Ok (Some (VBool false)) ∧
  emitted_at order_update full_context ["enrichment"; "data_quality"]
    = Ok (Some (VDict (<["has_before" := VBool true]> (<["has_after" := VBool true]>
                      (<["field_count" := VInt 2]> (<["is_complete" := VBool true]> ∅)))))) ∧
  emitted_at order_update full_context ["enrichment"; "customer_insights"]
    = Ok (Some (VDict (<["email_domain" := VStr "y.com"]> (<["has_email" := VBool true]>
                      (<["email_length" := VInt 7]> ∅))))).
Proof. split_and!; vm_compute; reflexivity. Qed.

(** The same event as bytes. *)
Example order_update_bytes :
  process (Bytes (list_byte_of_string order_update_text)) full_context
  = (Returned (Bytes stub_out), order_log).
Proof. vm_compute. reflexivity. Qed.

(** A [null] source leaves out [source_metadata] and the document is built,
    but line 100 calls [source.get] again and the event is passed through. *)
Example null_source_passes_through :
  emitted_at null_source full_context ["enrichment"; "source_metadata"] = Ok None ∧
  emitted_at null_source full_context ["enrichment"; "operation"; "code"]
    = Ok (Some (VStr "unknown")) ∧
  process (Text null_source_text) full_context
    = (Returned (Text null_source_text),
       [LogError "Error processing message: 'NoneType' object has no attribute 'get'"]).
Proof. split_and!; vm_compute; reflexivity. Qed.

End Examples.

(** ** Further behaviour of [process] *)

Section Further.
Context `{rt : Runtime}.

(** A successful run logs one info line and nothing else: it names the
    [table] of [source], or "unknown" when [source] is absent or has no
    [table], and the operation code. *)
Theorem success_logs_table_and_op (input : payload) (ctx : Context)
    (message : value) (out : list Byte.byte) (log : list log_entry) :
  decode_message input = Ok message →
  process_body input ctx = Ok (out, log) →
  ∃ d source,
    message = VDict d ∧
    default (VDict ∅) (d !! "source") = VDict source ∧
    log = [LogInfo ("Enriched message from "
                    ++ py_str (default (VStr "unknown") (source !! "table"))
                    ++ " - op: "
                    ++ py_str (default (VStr "unknown") (d !! "op")))].
Proof.
  intros Hdec Hbody. unfold process_body in Hbody.
  rewrite Hdec in Hbody. simpl in Hbody.
  apply bind_Ok in Hbody as ([[enriched source] op] & Henrich & H).
  apply bind_Ok in H as (output & _ & H).
  apply bind_Ok in H as (logger & _ & H).
  apply bind_Ok in H as (line & Hline & [= _ <-]).
  apply enrich_Ok in Henrich
    as (d & _ & _ & _ & _ & _ & _ & -> & -> & -> & _).
  unfold info_line in Hline.
  apply bind_Ok in Hline as (table & (src & Hsrc & ->)%py_get_Ok & [= <-]).
  exists d, src. by rewrite Hsrc.
Qed.

(** JSON that parses to anything but an object is passed through: the first
    [message.get] raises. *)
Theorem non_object_passes_through (input : payload) (ctx : Context)
    (message : value) :
  has_logger ctx = true →
  decode_message input = Ok message →
  (∀ d, message ≠ VDict d) →
  process input ctx
  = (Returned input,
     [LogError ("Error processing message: '" ++ type_name message
                ++ "' object has no attribute 'get'")]).
Proof.
  intros Hlogger Hdec Hnot.
  apply (process_body_Raise input ctx (AttributeError (type_name message) "get") Hlogger).
  apply process_body_stages; [done |]. right. exists message. split; [done |].
  left. destruct message; try done. by destruct (Hnot d).
Qed.

(** Without a logger no call returns: the body cannot reach its end, and
    the handler raises in turn. *)
Theorem no_logger_always_propagates (input : payload) (ctx : Context) :
  has_logger ctx = false →
  process input ctx = (Propagated (AttributeError (class_name ctx) "get_logger"), []).
Proof.
  intros Hlogger. unfold process.
  destruct (process_body input ctx) as [[out log] | e] eqn:Hbody.
  - unfold process_body in Hbody.
    apply bind_Ok in Hbody as (message & _ & H).
    apply bind_Ok in H as ([[enriched source] op] & _ & H).
    apply bind_Ok in H as (output & _ & H).
    apply bind_Ok in H as (logger & Hget & _).
    unfold get_logger in Hget. rewrite Hlogger in Hget. discriminate.
  - unfold get_logger. by rewrite Hlogger.
Qed.

(** With a logger every call returns and logs exactly one line: the encoded
    document with an info line, or the input itself with an error line. *)
Theorem logger_two_outcomes (input : payload) (ctx : Context) :
  has_logger ctx = true →
  (∃ out line, process_body input ctx = Ok (out, [LogInfo line]) ∧
               process input ctx = (Returned (Bytes out), [LogInfo line])) ∨
  (∃ e, process_body input ctx = Raise e ∧
        process input ctx = (Returned input, [LogError (error_line e)])).
Proof.
  intros Hlogger.
  destruct (process_body input ctx) as [[out log] | e] eqn:Hbody.
  - left. pose proof Hbody as H. unfold process_body in H.
    apply bind_Ok in H as (message & Hdec & _).
    destruct (process_body_Ok _ _ _ _ _ Hdec Hbody) as (_ & _ & [line ->] & Hprocess).
    by exists out, line.
  - right. exists e. split; [done |]. by apply process_body_Raise.
Qed.

(** Bytes that decode to a text are processed as that text is: the same
    document, the same log; when that succeeds the two calls return the
    same bytes. *)
Theorem bytes_processed_as_text (b : list Byte.byte) (s : string) (ctx : Context) :
  utf8_decode b = Ok s →
  process_body (Bytes b) ctx = process_body (Text s) ctx ∧
  ∀ out log, process_body (Text s) ctx = Ok (out, log) →
             process (Bytes b) ctx = process (Text s) ctx.
Proof.
  intros Hutf8.
  assert (process_body (Bytes b) ctx = process_body (Text s) ctx) as Heq.
  { unfold process_body, decode_message. by rewrite Hutf8. }
  split; [done |]. intros out log Hbody.
  unfold process. by rewrite Heq, Hbody.
Qed.
(** The groups behind a successful run. *)
Lemma success_groups (input : payload) (ctx : Context) (message : value)
    (out : list Byte.byte) (log : list log_entry) :
  decode_message input = Ok message →
  process_body input ctx = Ok (out, log) →
  ∃ d operation timestamps source_metadata data_quality customer_insights
    processing_metadata,
    message = VDict d ∧
    operation_group (default (VStr "unknown") (d !! "op")) = Ok operation ∧
    timestamps_group (default VNone (d !! "ts_ms")) = Ok timestamps ∧
    source_metadata_group (default (VDict ∅) (d !! "source")) = Ok source_metadata ∧
    data_quality_group (default VNone (d !! "before"))
                       (default VNone (d !! "after")) = Ok data_quality ∧
    customer_insights_group (default VNone (d !! "after")) = Ok customer_insights ∧
    processing_metadata_group ctx = Ok processing_metadata ∧
    emits message ctx out
      (VDict (<["original" := message]> (<["enrichment" :=
         VDict (assemble operation timestamps source_metadata data_quality
                         customer_insights processing_metadata)]> ∅))).
Proof.
  intros Hdec Hbody.
  destruct (process_body_Ok _ _ _ _ _ Hdec Hbody) as ([enriched Hemits] & _).
  pose proof Hemits as (source & op & output & Henrich & _).
  apply enrich_Ok in Henrich
    as (d & operation & ts & sm & dq & ci & pm & -> & -> & -> & Hop & Hts & Hsm
        & Hdq & Hci & Hpm & ->).
  by exists d, operation, ts, sm, dq, ci, pm.
Qed.

(** No [customer_insights] without an address: when [after] is absent,
    null, or a mapping without the key [email], the group is left out. *)
Theorem customer_insights_needs_email (input : payload) (ctx : Context)
    (message : value) (out : list Byte.byte) (log : list log_entry) :
  decode_message input = Ok message →
  process_body input ctx = Ok (out, log) →
  field "after" message = None ∨
  field "after" message = Some VNone ∨
  (∃ after, field "after" message = Some (VDict after) ∧ after !! "email" = None) →
  ∃ enriched,
    emits message ctx out enriched ∧
    at_path ["enrichment"; "customer_insights"] enriched = None.
Proof.
  intros Hdec Hbody Hafter.
  destruct (success_groups _ _ _ _ _ Hdec Hbody)
    as (d & operation & ts & sm & dq & ci & pm & -> & _ & _ & _ & _ & Hci & _ & Hemits).
  eexists. split; [exact Hemits |].
  rewrite at_path_group, assemble_customer_insights. simpl in Hafter.
  apply customer_insights_group_Ok in Hci as [[-> _] | (Htruthy & Hkey & _)];
    [done |].
  exfalso. destruct Hafter as [Hnone | [Hnull | (after & Hsome & Hno)]].
  - rewrite Hnone in Htruthy. discriminate.
  - rewrite Hnull in Htruthy. discriminate.
  - rewrite Hsome in Hkey. simpl in Hkey. rewrite Hno in Hkey.
    rewrite bool_decide_eq_false_2 in Hkey by (by intros [? [=]]).
    discriminate.
Qed.

(** For a string under [email], [email_length] is its number of characters
    and [has_email] tells whether it is non-empty. *)
Theorem email_length_and_presence (input : payload) (ctx : Context)
    (message : value) (out : list Byte.byte) (log : list log_entry)
    (after : gmap string value) (email : string) :
  decode_message input = Ok message →
  process_body input ctx = Ok (out, log) →
  field "after" message = Some (VDict after) →
  after !! "email" = Some (VStr email) →
  ∃ enriched,
    emits message ctx out enriched ∧
    at_path ["enrichment"; "customer_insights"; "email_length"] enriched
      = Some (VInt (Z.of_nat (String.length email))) ∧
    at_path ["enrichment"; "customer_insights"; "has_email"] enriched
      = Some (VBool (bool_decide (email ≠ ""))).
Proof.
  intros Hdec Hbody Hafter Hemail.
  destruct (success_groups _ _ _ _ _ Hdec Hbody)
    as (d & operation & ts & sm & dq & ci & pm & -> & _ & _ & _ & _ & Hci & _ & Hemits).
  eexists. split; [exact Hemits |].
  rewrite !at_path_group, assemble_customer_insights.
  simpl in Hafter. rewrite Hafter in Hci. simpl default in Hci.
  apply customer_insights_group_Ok in Hci
    as [[_ [Hfalsy | Hno_key]]
       | (_ & _ & email' & has_at & email_domain & n & Hget & _ & _ & Hlen & ->)].
  - simpl in Hfalsy. apply negb_false_iff, Nat.eqb_eq, map_size_empty_iff in Hfalsy.
    by rewrite Hfalsy in Hemail.
  - simpl in Hno_key. rewrite Hemail in Hno_key.
    by rewrite bool_decide_eq_true_2 in Hno_key by eauto.
  - simpl in Hget. rewrite Hemail in Hget. injection Hget as <-.
    simpl in Hlen. injection Hlen as <-. simpl. split; [done |].
    rewrite lookup_insert_ne by done. rewrite lookup_insert_eq. simpl.
    do 2 f_equal. destruct (String.eqb_spec email "") as [-> | Hne].
    + symmetry. apply bool_decide_eq_false_2. by intros [].
    + symmetry. by apply bool_decide_eq_true_2.
Qed.

(** A list under [email] that lacks the element "@" is enriched like a
    string without [@]: no domain, the length of the list as length. *)
Theorem list_email_is_measured (input : payload) (ctx : Context)
    (message : value) (out : list Byte.byte) (log : list log_entry)
    (after : gmap string value) (email : list value) :
  decode_message input = Ok message →
  process_body input ctx = Ok (out, log) →
  field "after" message = Some (VDict after) →
  after !! "email" = Some (VList email) →
  (VStr "@" ∉ email) ∧
  ∃ enriched,
    emits message ctx out enriched ∧
    at_path ["enrichment"; "customer_insights"; "email_domain"] enriched
      = Some VNone ∧
    at_path ["enrichment"; "customer_insights"; "email_length"] enriched
      = Some (VInt (Z.of_nat (length email))).
Proof.
  intros Hdec Hbody Hafter Hemail.
  destruct (success_groups _ _ _ _ _ Hdec Hbody)
    as (d & operation & ts & sm & dq & ci & pm & -> & _ & _ & _ & _ & Hci & _ & Hemits).
  simpl in Hafter. rewrite Hafter in Hci. simpl default in Hci.
  apply customer_insights_group_Ok in Hci
    as [[_ [Hfalsy | Hno_key]]
       | (_ & _ & email' & has_at & email_domain & n & Hget & Hat & Hdomain & Hlen & ->)].
  - simpl in Hfalsy. apply negb_false_iff, Nat.eqb_eq, map_size_empty_iff in Hfalsy.
    by rewrite Hfalsy in Hemail.
  - simpl in Hno_key. rewrite Hemail in Hno_key.
    by rewrite bool_decide_eq_true_2 in Hno_key by eauto.
  - simpl in Hget. rewrite Hemail in Hget. injection Hget as <-.
    simpl in Hat. injection Hat as <-. simpl in Hlen. injection Hlen as <-.
    destruct (existsb (λ x, eq_str x "@") email) eqn:Hexists;
      [simpl in Hdomain; discriminate |].
    injection Hdomain as <-. split.
    + intros Hin%existsb_eq_str. congruence.
    + eexists. split; [exact Hemits |].
      by rewrite !at_path_group, assemble_customer_insights.
Qed.
(** The fields of [source_metadata] are those of [source], under the names
    of the group; a field [source] lacks is null. *)
Theorem source_metadata_copies_fields (input : payload) (ctx : Context)
    (message : value) (out : list Byte.byte) (log : list log_entry)
    (source : gmap string value) :
  decode_message input = Ok message →
  process_body input ctx = Ok (out, log) →
  field "source" message = Some (VDict source) →
  source ≠ ∅ →
  ∃ enriched,
    emits message ctx out enriched ∧
    at_path ["enrichment"; "source_metadata"; "database"] enriched
      = Some (default VNone (source !! "db")) ∧
    at_path ["enrichment"; "source_metadata"; "schema"] enriched
      = Some (default VNone (source !! "schema")) ∧
    at_path ["enrichment"; "source_metadata"; "table"] enriched
      = Some (default VNone (source !! "table")) ∧
    at_path ["enrichment"; "source_metadata"; "connector"] enriched
      = Some (default VNone (source !! "connector")) ∧
    at_path ["enrichment"; "source_metadata"; "version"] enriched
      = Some (default VNone (source !! "version")).
Proof.
  intros Hdec Hbody Hsource Hne.
  destruct (success_groups _ _ _ _ _ Hdec Hbody)
    as (d & operation & ts & sm & dq & ci & pm & -> & _ & _ & Hsm & _ & _ & _ & Hemits).
  simpl in Hsource. rewrite Hsource in Hsm. simpl default in Hsm.
  apply source_metadata_group_Ok in Hsm as [[Hfalsy _] | (src & [= <-] & _ & ->)].
  { apply truthy_dict in Hne. congruence. }
  eexists. split; [exact Hemits |].
  rewrite !at_path_group, assemble_source_metadata. simpl.
  split_and!; by simplify_map_eq.
Qed.

(** No [source_metadata] without a source: when [source] is absent or an
    empty mapping, the group is left out. *)
Theorem source_metadata_needs_source (input : payload) (ctx : Context)
    (message : value) (out : list Byte.byte) (log : list log_entry) :
  decode_message input = Ok message →
  process_body input ctx = Ok (out, log) →
  field "source" message = None ∨ field "source" message = Some (VDict ∅) →
  ∃ enriched,
    emits message ctx out enriched ∧
    at_path ["enrichment"; "source_metadata"] enriched = None.
Proof.
  intros Hdec Hbody Hsource.
  destruct (success_groups _ _ _ _ _ Hdec Hbody)
    as (d & operation & ts & sm & dq & ci & pm & -> & _ & _ & Hsm & _ & _ & _ & Hemits).
  eexists. split; [exact Hemits |].
  rewrite at_path_group, assemble_source_metadata. simpl in Hsource.
  assert (default (VDict ∅) (d !! "source") = VDict ∅) as Hempty
    by (destruct Hsource as [-> | ->]; done).
  rewrite Hempty in Hsm.
  apply source_metadata_group_Ok in Hsm as [[_ ->] | (src & [= <-] & Hne & _)]; done.
Qed.

(** What a capability of the context returns is what the group carries;
    the message identifier goes through [str]. *)
Theorem present_capability_values (input : payload) (ctx : Context)
    (message : value) (out : list Byte.byte) (log : list log_entry) :
  decode_message input = Ok message →
  process_body input ctx = Ok (out, log) →
  ∃ enriched,
    emits message ctx out enriched ∧
    (∀ v, get_function_name ctx = Some (Ok v) →
       at_path ["enrichment"; "processing_metadata"; "function_name"] enriched
         = Some v) ∧
    (∀ v, get_function_version ctx = Some (Ok v) →
       at_path ["enrichment"; "processing_metadata"; "function_version"] enriched
         = Some v) ∧
    (∀ v, get_message_id ctx = Some (Ok v) →
       at_path ["enrichment"; "processing_metadata"; "message_id"] enriched
         = Some (VStr (py_str v))) ∧
    (∀ v, get_current_message_topic_name ctx = Some (Ok v) →
       at_path ["enrichment"; "processing_metadata"; "topic"] enriched = Some v) ∧
    (∀ v, get_partition_id ctx = Some (Ok v) →
       at_path ["enrichment"; "processing_metadata"; "partition_id"] enriched
         = Some v).
Proof.
  intros Hdec Hbody.
  destruct (success_groups _ _ _ _ _ Hdec Hbody)
    as (d & operation & ts & sm & dq & ci & pm & -> & _ & _ & _ & _ & _ & Hpm & Hemits).
  eexists. split; [exact Hemits |].
  rewrite !at_path_group, assemble_processing_metadata.
  unfold processing_metadata_group in Hpm.
  apply bind_Ok in Hpm as (name & Hname & Hpm).
  apply bind_Ok in Hpm as (version & Hversion & Hpm).
  apply bind_Ok in Hpm as (id & Hid & Hpm).
  apply bind_Ok in Hpm as (topic & Htopic & Hpm).
  apply bind_Ok in Hpm as (partition & Hpartition & [= <-]).
  simpl. split_and!; intros v Hv.
  - rewrite Hv in Hname. injection Hname as <-. by simplify_map_eq.
  - rewrite Hv in Hversion. injection Hversion as <-. by simplify_map_eq.
  - rewrite Hv in Hid. injection Hid as <-. by simplify_map_eq.
  - rewrite Hv in Htopic. injection Htopic as <-. by simplify_map_eq.
  - rewrite Hv in Hpartition. injection Hpartition as <-. by simplify_map_eq.
Qed.

Lemma attach_is_Some (key k : string) (g : option value) (m : gmap string value) :
  is_Some (attach key g m !! k) → k = key ∨ is_Some (m !! k).
Proof.
  destruct g as [v |]; simpl; [| by right].
  rewrite lookup_insert_is_Some. intros [-> | [_ H]]; [by left | by right].
Qed.

(** The [enrichment] mapping holds the six groups of the source and no
    other key. *)
Theorem enrichment_has_only_its_groups (input : payload) (ctx : Context)
    (message : value) (out : list Byte.byte) (log : list log_entry) :
  decode_message input = Ok message →
  process_body input ctx = Ok (out, log) →
  ∃ enriched,
    emits message ctx out enriched ∧
    ∀ key, is_Some (at_path ["enrichment"; key] enriched) →
      key ∈ ["operation"; "timestamps"; "source_metadata"; "data_quality";
             "customer_insights"; "processing_metadata"].
Proof.
  intros Hdec Hbody.
  destruct (success_groups _ _ _ _ _ Hdec Hbody)
    as (d & operation & ts & sm & dq & ci & pm & -> & _ & _ & _ & _ & _ & _ & Hemits).
  eexists. split; [exact Hemits |]. intros key.
  rewrite at_path_group. unfold assemble.
  destruct (_ !! key) as [g |] eqn:Hkey; [| by intros [? [=]]]. intros _.
  assert (is_Some (<["processing_metadata" := pm]>
            (attach "customer_insights" ci (<["data_quality" := dq]>
            (attach "source_metadata" sm (attach "timestamps" ts
            (<["operation" := operation]> ∅))))) !! key)) as H by eauto.
  apply lookup_insert_is_Some in H as [<- | [_ H]]; [set_solver |].
  apply attach_is_Some in H as [-> | H]; [set_solver |].
  apply lookup_insert_is_Some in H as [<- | [_ H]]; [set_solver |].
  apply attach_is_Some in H as [-> | H]; [set_solver |].
  apply attach_is_Some in H as [-> | H]; [set_solver |].
  apply lookup_insert_is_Some in H as [<- | [_ H]]; [set_solver |].
  rewrite lookup_empty in H. by destruct H.
Qed.

(** The [timestamps] group carries, beside the raw value, what the runtime
    makes of it and the reading of the clock. *)
Theorem timestamps_from_runtime (input : payload) (ctx : Context)
    (message : value) (out : list Byte.byte) (log : list log_entry)
    (ts_ms : value) :
  decode_message input = Ok message →
  process_body input ctx = Ok (out, log) →
  field "ts_ms" message = Some ts_ms →
  truthy ts_ms = true →
  ∃ enriched iso,
    emits message ctx out enriched ∧
    event_time_iso ts_ms = Ok iso ∧
    at_path ["enrichment"; "timestamps"; "event_time_iso"] enriched
      = Some (VStr iso) ∧
    at_path ["enrichment"; "timestamps"; "processing_time_iso"] enriched
      = Some (VStr utcnow_iso).
Proof.
  intros Hdec Hbody Hts Htruthy.
  destruct (success_groups _ _ _ _ _ Hdec Hbody)
    as (d & operation & ts & sm & dq & ci & pm & -> & _ & Htsg & _ & _ & _ & _ & Hemits).
  simpl in Hts. rewrite Hts in Htsg. simpl default in Htsg.
  unfold timestamps_group in Htsg. rewrite Htruthy in Htsg.
  apply bind_Ok in Htsg as (iso & Hiso & [= <-]).
  eexists _, iso. split; [exact Hemits |]. split; [done |].
  rewrite !at_path_group, assemble_timestamps. simpl.
  split; by simplify_map_eq.
Qed.
(** An exception of [enrich] ends in the handler. *)
Lemma enrich_Raise_passes_through (input : payload) (ctx : Context)
    (message : value) (e : exn) :
  has_logger ctx = true →
  decode_message input = Ok message →
  enrich message ctx = Raise e →
  process_body input ctx = Raise e ∧
  process input ctx = (Returned input, [LogError (error_line e)]).
Proof.
  intros Hlogger Hdec Henrich.
  assert (process_body input ctx = Raise e) as Hbody.
  { apply process_body_stages; [done |]. right. exists message. eauto. }
  split; [done |]. by apply process_body_Raise.
Qed.

(** A [source] that is present and is no mapping is never enriched: a
    truthy one makes [source_metadata] raise, a falsy one (null, 0, an
    empty string or list) makes the info line raise. *)
Theorem non_mapping_source_passes_through (input : payload) (ctx : Context)
    (d : gmap string value) (source : value) :
  has_logger ctx = true →
  decode_message input = Ok (VDict d) →
  d !! "source" = Some source →
  (∀ m, source ≠ VDict m) →
  ∃ e, process_body input ctx = Raise e ∧
       process input ctx = (Returned input, [LogError (error_line e)]).
Proof.
  intros Hlogger Hdec Hsource Hnot.
  assert (∃ e, process_body input ctx = Raise e) as [e Hbody].
  { destruct (enrich (VDict d) ctx) as [[[enriched source'] op] | e] eqn:Henrich.
    - pose proof Henrich as H.
      apply enrich_Ok in H as (d' & _ & _ & _ & _ & _ & _ & [= <-] & _ & -> & _).
      rewrite Hsource in Henrich. simpl default in Henrich.
      destruct (json_dumps 2 enriched) as [output | e] eqn:Hdumps.
      + exists (AttributeError (type_name source) "get").
        apply process_body_stages; [done |]. right. exists (VDict d).
        split; [done |]. right. exists enriched, source, op.
        split; [done |]. right. exists output. split; [done |].
        unfold info_line. destruct source; try done. by destruct (Hnot d0).
      + exists e. apply process_body_stages; [done |]. right. exists (VDict d).
        split; [done |]. right. exists enriched, source, op. eauto.
    - exists e. by apply (enrich_Raise_passes_through input ctx (VDict d)). }
  exists e. split; [done |]. by apply process_body_Raise.
Qed.

(** A list or a mapping under [op] cannot be looked up in the table of
    labels: the event is passed through with the message of the lookup. *)
Theorem unhashable_op_passes_through (input : payload) (ctx : Context)
    (d : gmap string value) (op : value) :
  has_logger ctx = true →
  decode_message input = Ok (VDict d) →
  d !! "op" = Some op →
  (∃ l, op = VList l) ∨ (∃ m, op = VDict m) →
  process input ctx
  = (Returned input,
     [LogError ("Error processing message: unhashable type: '" ++ type_name op ++ "'")]).
Proof.
  intros Hlogger Hdec Hop Hkind.
  apply (enrich_Raise_passes_through input ctx (VDict d)
           (TypeError ("unhashable type: '" ++ type_name op ++ "'")) Hlogger Hdec).
  rewrite enrich_dict. cbv zeta. rewrite Hop. simpl default.
  by destruct Hkind as [[l ->] | [m ->]].
Qed.

(** A truthy [ts_ms] that is no number cannot be divided: the event is
    passed through. *)
Theorem non_numeric_ts_passes_through (input : payload) (ctx : Context)
    (d : gmap string value) (ts_ms : value) :
  has_logger ctx = true →
  decode_message input = Ok (VDict d) →
  d !! "ts_ms" = Some ts_ms →
  truthy ts_ms = true →
  (∀ z, ts_ms ≠ VInt z) → (∀ b, ts_ms ≠ VBool b) → (∀ f, ts_ms ≠ VFloat f) →
  ∃ e, process_body input ctx = Raise e ∧
       process input ctx = (Returned input, [LogError (error_line e)]).
Proof.
  intros Hlogger Hdec Hts Htruthy Hint Hbool Hfloat.
  destruct (enrich_group_raises d ctx
    (TypeError ("unsupported operand type(s) for /: '" ++ type_name ts_ms
                ++ "' and 'float'"))) as [e Henrich].
  { right. left. rewrite Hts. simpl default.
    unfold timestamps_group. rewrite Htruthy.
    destruct ts_ms as [| b | z | f | s | l | m]; try done.
    - by destruct (Hbool b).
    - by destruct (Hint z).
    - by destruct (Hfloat f). }
  exists e. by apply (enrich_Raise_passes_through input ctx (VDict d)).
Qed.

(** An [after] that is a boolean or a number has no length: the event is
    passed through, also when the value is falsy (0, false). *)
Theorem unsized_after_passes_through (input : payload) (ctx : Context)
    (d : gmap string value) (after : value) :
  has_logger ctx = true →
  decode_message input = Ok (VDict d) →
  d !! "after" = Some after →
  (∃ b, after = VBool b) ∨ (∃ z, after = VInt z) ∨ (∃ f, after = VFloat f) →
  ∃ e, process_body input ctx = Raise e ∧
       process input ctx = (Returned input, [LogError (error_line e)]).
Proof.
  intros Hlogger Hdec Hafter Hkind.
  destruct (enrich_group_raises d ctx
    (TypeError ("object of type '" ++ type_name after ++ "' has no len()")))
    as [e Henrich].
  { do 3 right. left. rewrite Hafter. simpl default.
    unfold data_quality_group.
    destruct Hkind as [[b ->] | [[z ->] | [f ->]]]; simpl.
    - by destruct b.
    - by destruct (z =? 0)%Z.
    - by destruct f. }
  exists e. by apply (enrich_Raise_passes_through input ctx (VDict d)).
Qed.

(** An accessor of the context that raises is not treated as a missing
    one: the event is passed through. *)
Theorem raising_accessor_passes_through (input : payload) (ctx : Context)
    (d : gmap string value) (e : exn) :
  has_logger ctx = true →
  decode_message input = Ok (VDict d) →
  get_function_name ctx = Some (Raise e) ∨
  get_function_version ctx = Some (Raise e) ∨
  get_message_id ctx = Some (Raise e) ∨
  get_current_message_topic_name ctx = Some (Raise e) ∨
  get_partition_id ctx = Some (Raise e) →
  ∃ e', process_body input ctx = Raise e' ∧
        process input ctx = (Returned input, [LogError (error_line e')]).
Proof.
  intros Hlogger Hdec Hraises.
  assert (∃ e', processing_metadata_group ctx = Raise e') as [e' Hgroup].
  { unfold processing_metadata_group.
    destruct (get_function_name ctx) as [[name | ?] |]; simpl; eauto;
    destruct (get_function_version ctx) as [[version | ?] |]; simpl; eauto;
    destruct (get_message_id ctx) as [[id | ?] |]; simpl; eauto;
    destruct (get_current_message_topic_name ctx) as [[topic | ?] |]; simpl; eauto;
    destruct (get_partition_id ctx) as [[partition | ?] |]; simpl; eauto;
    destruct Hraises as [H | [H | [H | [H | H]]]]; discriminate. }
  destruct (enrich_group_raises d ctx e') as [e'' Henrich]; [tauto |].
  exists e''. by apply (enrich_Raise_passes_through input ctx (VDict d)).
Qed.
(** A truthy value that has a length has a positive one, a falsy one has
    length 0. *)
Lemma py_len_truthy (v : value) (n : Z) :
  py_len v = Ok n → (truthy v = true ↔ (0 < n)%Z).
Proof.
  destruct v as [| b | z | f | s | l | m]; simpl; try discriminate;
    intros [= <-].
  - destruct s; simpl; [split; [discriminate | lia] | split; [lia | done]].
  - destruct l; simpl; [split; [discriminate | lia] | split; [lia | done]].
  - rewrite negb_true_iff, Nat.eqb_neq. lia.
Qed.

(** [is_mutation] and [label] agree: the mutations are the events labelled
    CREATE, UPDATE or DELETE. *)
Theorem mutation_iff_write_label (input : payload) (ctx : Context)
    (message : value) (out : list Byte.byte) (log : list log_entry) :
  decode_message input = Ok message →
  process_body input ctx = Ok (out, log) →
  ∃ enriched label is_mutation,
    emits message ctx out enriched ∧
    at_path ["enrichment"; "operation"; "label"] enriched = Some (VStr label) ∧
    at_path ["enrichment"; "operation"; "is_mutation"] enriched
      = Some (VBool is_mutation) ∧
    (is_mutation = true ↔ label ∈ ["CREATE"; "UPDATE"; "DELETE"]).
Proof.
  intros Hdec Hbody.
  destruct (success_groups _ _ _ _ _ Hdec Hbody)
    as (d & operation & ts & sm & dq & ci & pm & -> & Hop & _ & _ & _ & _ & _ & Hemits).
  unfold operation_group in Hop.
  apply bind_Ok in Hop as (label & Hlabel & [= <-]).
  assert (∃ name, label = VStr name ∧
            (in_str_list (default (VStr "unknown") (d !! "op")) ["c"; "u"; "d"] = true
             ↔ In name ["CREATE"; "UPDATE"; "DELETE"])) as (name & -> & Hiff).
  { destruct (default (VStr "unknown") (d !! "op")) as [| b | z | f | s | l | m];
      simpl in Hlabel; try discriminate; injection Hlabel as <-;
      try (exists "UNKNOWN"; split; [done |]; simpl; intuition congruence).
    rewrite op_labels_lookup.
    repeat case_decide; subst; simpl; eexists; (split; [done |]); simpl;
      try (intuition congruence).
    assert (String.eqb s "c" = false) as -> by (by apply String.eqb_neq).
    assert (String.eqb s "u" = false) as -> by (by apply String.eqb_neq).
    assert (String.eqb s "d" = false) as -> by (by apply String.eqb_neq).
    simpl. intuition congruence. }
  eexists _, name, _. split; [exact Hemits |].
  rewrite !at_path_group, assemble_operation. simpl.
  split_and!; [done | done |].
  by rewrite list_elem_of_In.
Qed.

(** The flags of [data_quality] agree with the count, whatever [after] is:
    [is_complete] holds exactly when [field_count] is positive, and only
    when [has_after] holds; the count is never negative. *)
Theorem data_quality_flags_agree (input : payload) (ctx : Context)
    (message : value) (out : list Byte.byte) (log : list log_entry) :
  decode_message input = Ok message →
  process_body input ctx = Ok (out, log) →
  ∃ enriched has_after field_count is_complete,
    emits message ctx out enriched ∧
    at_path ["enrichment"; "data_quality"; "has_after"] enriched
      = Some (VBool has_after) ∧
    at_path ["enrichment"; "data_quality"; "field_count"] enriched
      = Some (VInt field_count) ∧
    at_path ["enrichment"; "data_quality"; "is_complete"] enriched
      = Some (VBool is_complete) ∧
    (is_complete = true ↔ (0 < field_count)%Z) ∧
    (is_complete = true → has_after = true) ∧
    (0 ≤ field_count)%Z.
Proof.
  intros Hdec Hbody.
  destruct (success_groups _ _ _ _ _ Hdec Hbody)
    as (d & operation & ts & sm & dq & ci & pm & -> & _ & _ & _ & Hdq & _ & _ & Hemits).
  apply data_quality_group_Ok in Hdq as (field_count & is_complete & -> & Hcount & Hcomplete).
  eexists _, _, field_count, is_complete. split; [exact Hemits |].
  rewrite !at_path_group, assemble_data_quality. simpl.
  split_and!; try done.
  - destruct (is_not_none (default VNone (d !! "after"))) eqn:Hnn.
    + apply bind_Ok in Hcomplete as (n & Hlen & [= <-]).
      pose proof (py_len_truthy _ _ Hlen) as Htruthy.
      destruct (truthy (default VNone (d !! "after"))).
      * rewrite Hlen in Hcount. injection Hcount as <-. apply Z.ltb_lt.
      * injection Hcount as <-. rewrite Z.ltb_lt.
        split; [intros H%Htruthy; discriminate | lia].
    + injection Hcomplete as <-.
      destruct (default VNone (d !! "after")); try discriminate.
      simpl in Hcount. injection Hcount as <-. split; [discriminate | lia].
  - destruct (is_not_none (default VNone (d !! "after"))); [done |].
    injection Hcomplete as <-. discriminate.
  - destruct (truthy (default VNone (d !! "after"))) eqn:Htruthy.
    + apply (py_len_truthy _ _ Hcount) in Htruthy. lia.
    + injection Hcount as <-. lia.
Qed.

(** Where [customer_insights] is emitted, [data_quality] says the row is
    there and complete. *)
Theorem insights_imply_complete (input : payload) (ctx : Context)
    (message : value) (out : list Byte.byte) (log : list log_entry) :
  decode_message input = Ok message →
  process_body input ctx = Ok (out, log) →
  ∃ enriched,
    emits message ctx out enriched ∧
    (is_Some (at_path ["enrichment"; "customer_insights"] enriched) →
     at_path ["enrichment"; "data_quality"; "has_after"] enriched
       = Some (VBool true) ∧
     at_path ["enrichment"; "data_quality"; "is_complete"] enriched
       = Some (VBool true)).
Proof.
  intros Hdec Hbody.
  destruct (success_groups _ _ _ _ _ Hdec Hbody)
    as (d & operation & ts & sm & dq & ci & pm & -> & _ & _ & _ & Hdq & Hci & _ & Hemits).
  apply data_quality_group_Ok in Hdq as (field_count & is_complete & -> & Hcount & Hcomplete).
  eexists. split; [exact Hemits |].
  rewrite !at_path_group, assemble_customer_insights, assemble_data_quality.
  simpl. intros Hsome.
  apply customer_insights_group_Ok in Hci as [[-> _] | (Htruthy & _)];
    [by destruct Hsome |].
  assert (is_not_none (default VNone (d !! "after")) = true) as Hnn
    by (by destruct (default VNone (d !! "after"))).
  rewrite Hnn in Hcomplete |- *.
  apply bind_Ok in Hcomplete as (n & Hlen & [= <-]).
  apply (py_len_truthy _ _ Hlen) in Htruthy.
  apply Z.ltb_lt in Htruthy. by rewrite Htruthy.
Qed.

(** In [customer_insights], [has_email] holds exactly when [email_length]
    is positive, whatever is stored under [email]. *)
Theorem has_email_iff_length (input : payload) (ctx : Context)
    (message : value) (out : list Byte.byte) (log : list log_entry)
    (after : gmap string value) :
  decode_message input = Ok message →
  process_body input ctx = Ok (out, log) →
  field "after" message = Some (VDict after) →
  is_Some (after !! "email") →
  ∃ enriched has_email email_length,
    emits message ctx out enriched ∧
    at_path ["enrichment"; "customer_insights"; "has_email"] enriched
      = Some (VBool has_email) ∧
    at_path ["enrichment"; "customer_insights"; "email_length"] enriched
      = Some (VInt email_length) ∧
    (has_email = true ↔ (0 < email_length)%Z).
Proof.
  intros Hdec Hbody Hafter [email Hemail].
  destruct (success_groups _ _ _ _ _ Hdec Hbody)
    as (d & operation & ts & sm & dq & ci & pm & -> & _ & _ & _ & _ & Hci & _ & Hemits).
  simpl in Hafter. rewrite Hafter in Hci. simpl default in Hci.
  apply customer_insights_group_Ok in Hci
    as [[_ [Hfalsy | Hno_key]]
       | (_ & _ & email' & has_at & email_domain & n & Hget & _ & _ & Hlen & ->)].
  - simpl in Hfalsy. apply negb_false_iff, Nat.eqb_eq, map_size_empty_iff in Hfalsy.
    by rewrite Hfalsy in Hemail.
  - simpl in Hno_key. rewrite Hemail in Hno_key.
    by rewrite bool_decide_eq_true_2 in Hno_key by eauto.
  - eexists _, (truthy email'), n. split; [exact Hemits |].
    rewrite !at_path_group, assemble_customer_insights. simpl.
    split_and!; [by simplify_map_eq.. |].
    by apply py_len_truthy.
Qed.

End Further.

(** ** The further theorems at concrete events *)

Section FurtherExamples.
#[local] Existing Instance edge_runtime.

(** The log of the order update names its table and its code. *)
Lemma success_logs_table_and_op_witness :
  (decode_message (Text order_update_text) = Ok order_update) ∧
  (process_body (Text order_update_text) full_context = Ok (stub_out, order_log)) ∧
  (∃ d source,
    order_update = VDict d ∧
    default (VDict ∅) (d !! "source") = VDict source ∧
    order_log = [LogInfo ("Enriched message from "
                    ++ py_str (default (VStr "unknown") (source !! "table"))
                    ++ " - op: "
                    ++ py_str (default (VStr "unknown") (d !! "op")))]).
Proof.
  assert (decode_message (Text order_update_text) = Ok order_update) as H1
    by (vm_compute; reflexivity).
  assert (process_body (Text order_update_text) full_context = Ok (stub_out, order_log)) as H2
    by (vm_compute; reflexivity).
  split; [exact H1 |].
  split; [exact H2 |].
  apply (success_logs_table_and_op (Text order_update_text) full_context order_update stub_out order_log H1 H2).
Defined.

(** A JSON array is passed through. *)
Lemma non_object_passes_through_witness :
  (has_logger logger_only_context = true) ∧
  (decode_message (Text json_array_text) = Ok json_array) ∧
  (∀ d, json_array ≠ VDict d) ∧
  (process (Text json_array_text) logger_only_context
  = (Returned (Text json_array_text),
     [LogError ("Error processing message: '" ++ type_name json_array
                ++ "' object has no attribute 'get'")])).
Proof.
  assert (has_logger logger_only_context = true) as H1
    by (reflexivity).
  assert (decode_message (Text json_array_text) = Ok json_array) as H2
    by (vm_compute; reflexivity).
  assert (∀ d, json_array ≠ VDict d) as H3
    by (discriminate).
  split; [exact H1 |].
  split; [exact H2 |].
  split; [exact H3 |].
  apply (non_object_passes_through (Text json_array_text) logger_only_context json_array H1 H2 H3).
Defined.

(** The order update without a logger. *)
Lemma no_logger_always_propagates_witness :
  (has_logger no_logger_context = false) ∧
  (process (Text order_update_text) no_logger_context
  = (Propagated (AttributeError (class_name no_logger_context) "get_logger"), [])).
Proof.
  assert (has_logger no_logger_context = false) as H1
    by (reflexivity).
  split; [exact H1 |].
  apply (no_logger_always_propagates (Text order_update_text) no_logger_context H1).
Defined.

(** The order update with a logger. *)
Lemma logger_two_outcomes_witness :
  (has_logger full_context = true) ∧
  ((∃ out line, process_body (Text order_update_text) full_context = Ok (out, [LogInfo line]) ∧
               process (Text order_update_text) full_context
                 = (Returned (Bytes out), [LogInfo line])) ∨
  (∃ e, process_body (Text order_update_text) full_context = Raise e ∧
        process (Text order_update_text) full_context
          = (Returned (Text order_update_text), [LogError (error_line e)]))).
Proof.
  assert (has_logger full_context = true) as H1
    by (reflexivity).
  split; [exact H1 |].
  apply (logger_two_outcomes (Text order_update_text) full_context H1).
Defined.

(** The order update as bytes. *)
Lemma bytes_processed_as_text_witness :
  (utf8_decode (list_byte_of_string order_update_text) = Ok order_update_text) ∧
  (process_body (Bytes (list_byte_of_string order_update_text)) full_context
    = process_body (Text order_update_text) full_context ∧
  ∀ out log, process_body (Text order_update_text) full_context = Ok (out, log) →
             process (Bytes (list_byte_of_string order_update_text)) full_context
             = process (Text order_update_text) full_context).
Proof.
  assert (utf8_decode (list_byte_of_string order_update_text) = Ok order_update_text) as H1
    by (vm_compute; reflexivity).
  split; [exact H1 |].
  apply (bytes_processed_as_text (list_byte_of_string order_update_text) order_update_text full_context H1).
Defined.

(** The delete has a null [after]. *)
Lemma customer_insights_needs_email_witness :
  (decode_message (Text order_delete_text) = Ok order_delete) ∧
  (process_body (Text order_delete_text) full_context = Ok (stub_out, delete_log)) ∧
  (field "after" order_delete = None ∨
  field "after" order_delete = Some VNone ∨
  (∃ after, field "after" order_delete = Some (VDict after) ∧ after !! "email" = None)) ∧
  (∃ enriched,
    emits order_delete full_context stub_out enriched ∧
    at_path ["enrichment"; "customer_insights"] enriched = None).
Proof.
  assert (decode_message (Text order_delete_text) = Ok order_delete) as H1
    by (vm_compute; reflexivity).
  assert (process_body (Text order_delete_text) full_context = Ok (stub_out, delete_log)) as H2
    by (vm_compute; reflexivity).
  assert (field "after" order_delete = None ∨
  field "after" order_delete = Some VNone ∨
  (∃ after, field "after" order_delete = Some (VDict after) ∧ after !! "email" = None)) as H3
    by (right; left; vm_compute; reflexivity).
  split; [exact H1 |].
  split; [exact H2 |].
  split; [exact H3 |].
  apply (customer_insights_needs_email (Text order_delete_text) full_context order_delete stub_out delete_log H1 H2 H3).
Defined.

(** The address of the order update has 7 characters. *)
Lemma email_length_and_presence_witness :
  let after : gmap string value :=
    (<["status" := VStr "shipped"]> (<["email" := VStr "x@y.com"]> ∅)) in
  (decode_message (Text order_update_text) = Ok order_update) ∧
  (process_body (Text order_update_text) full_context = Ok (stub_out, order_log)) ∧
  (field "after" order_update = Some (VDict after)) ∧
  (after !! "email" = Some (VStr "x@y.com")) ∧
  (∃ enriched,
    emits order_update full_context stub_out enriched ∧
    at_path ["enrichment"; "customer_insights"; "email_length"] enriched
      = Some (VInt (Z.of_nat (String.length "x@y.com"))) ∧
    at_path ["enrichment"; "customer_insights"; "has_email"] enriched
      = Some (VBool (bool_decide ("x@y.com" ≠ "")))).
Proof.
  intros after.
  assert (decode_message (Text order_update_text) = Ok order_update) as H1
    by (vm_compute; reflexivity).
  assert (process_body (Text order_update_text) full_context = Ok (stub_out, order_log)) as H2
    by (vm_compute; reflexivity).
  assert (field "after" order_update = Some (VDict after)) as H3
    by (vm_compute; reflexivity).
  assert (after !! "email" = Some (VStr "x@y.com")) as H4
    by (vm_compute; reflexivity).
  split; [exact H1 |].
  split; [exact H2 |].
  split; [exact H3 |].
  split; [exact H4 |].
  apply (email_length_and_presence (Text order_update_text) full_context order_update stub_out order_log after "x@y.com" H1 H2 H3 H4).
Defined.

(** An empty list under [email]. *)
Lemma list_email_is_measured_witness :
  let after : gmap string value :=
    (<["email" := VList []]> ∅) in
  (decode_message (Text list_email_text) = Ok list_email) ∧
  (process_body (Text list_email_text) full_context
    = Ok (stub_out, [LogInfo "Enriched message from unknown - op: unknown"])) ∧
  (field "after" list_email = Some (VDict after)) ∧
  (after !! "email" = Some (VList [])) ∧
  ((VStr "@" ∉ ([] : list value)) ∧
  ∃ enriched,
    emits list_email full_context stub_out enriched ∧
    at_path ["enrichment"; "customer_insights"; "email_domain"] enriched
      = Some VNone ∧
    at_path ["enrichment"; "customer_insights"; "email_length"] enriched
      = Some (VInt (Z.of_nat (length ([] : list value))))).
Proof.
  intros after.
  assert (decode_message (Text list_email_text) = Ok list_email) as H1
    by (vm_compute; reflexivity).
  assert (process_body (Text list_email_text) full_context
    = Ok (stub_out, [LogInfo "Enriched message from unknown - op: unknown"])) as H2
    by (vm_compute; reflexivity).
  assert (field "after" list_email = Some (VDict after)) as H3
    by (vm_compute; reflexivity).
  assert (after !! "email" = Some (VList [])) as H4
    by (vm_compute; reflexivity).
  split; [exact H1 |].
  split; [exact H2 |].
  split; [exact H3 |].
  split; [exact H4 |].
  apply (list_email_is_measured (Text list_email_text) full_context list_email stub_out [LogInfo "Enriched message from unknown - op: unknown"] after [] H1 H2 H3 H4).
Defined.

(** The source of the order update. *)
Lemma source_metadata_copies_fields_witness :
  let source : gmap string value :=
    (<["db" := VStr "sales"]> (<["table" := VStr "orders"]> (<["snapshot" := VStr "false"]> ∅))) in
  (decode_message (Text order_update_text) = Ok order_update) ∧
  (process_body (Text order_update_text) full_context = Ok (stub_out, order_log)) ∧
  (field "source" order_update = Some (VDict source)) ∧
  (source ≠ ∅) ∧
  (∃ enriched,
    emits order_update full_context stub_out enriched ∧
    at_path ["enrichment"; "source_metadata"; "database"] enriched
      = Some (default VNone (source !! "db")) ∧
    at_path ["enrichment"; "source_metadata"; "schema"] enriched
      = Some (default VNone (source !! "schema")) ∧
    at_path ["enrichment"; "source_metadata"; "table"] enriched
      = Some (default VNone (source !! "table")) ∧
    at_path ["enrichment"; "source_metadata"; "connector"] enriched
      = Some (default VNone (source !! "connector")) ∧
    at_path ["enrichment"; "source_metadata"; "version"] enriched
      = Some (default VNone (source !! "version"))).
Proof.
  intros source.
  assert (decode_message (Text order_update_text) = Ok order_update) as H1
    by (vm_compute; reflexivity).
  assert (process_body (Text order_update_text) full_context = Ok (stub_out, order_log)) as H2
    by (vm_compute; reflexivity).
  assert (field "source" order_update = Some (VDict source)) as H3
    by (vm_compute; reflexivity).
  assert (source ≠ ∅) as H4
    by (intros H%(f_equal size); vm_compute in H; lia).
  split; [exact H1 |].
  split; [exact H2 |].
  split; [exact H3 |].
  split; [exact H4 |].
  apply (source_metadata_copies_fields (Text order_update_text) full_context order_update stub_out order_log source H1 H2 H3 H4).
Defined.

(** The delete has no [source]. *)
Lemma source_metadata_needs_source_witness :
  (decode_message (Text order_delete_text) = Ok order_delete) ∧
  (process_body (Text order_delete_text) full_context = Ok (stub_out, delete_log)) ∧
  (field "source" order_delete = None ∨ field "source" order_delete = Some (VDict ∅)) ∧
  (∃ enriched,
    emits order_delete full_context stub_out enriched ∧
    at_path ["enrichment"; "source_metadata"] enriched = None).
Proof.
  assert (decode_message (Text order_delete_text) = Ok order_delete) as H1
    by (vm_compute; reflexivity).
  assert (process_body (Text order_delete_text) full_context = Ok (stub_out, delete_log)) as H2
    by (vm_compute; reflexivity).
  assert (field "source" order_delete = None ∨ field "source" order_delete = Some (VDict ∅)) as H3
    by (left; vm_compute; reflexivity).
  split; [exact H1 |].
  split; [exact H2 |].
  split; [exact H3 |].
  apply (source_metadata_needs_source (Text order_delete_text) full_context order_delete stub_out delete_log H1 H2 H3).
Defined.

(** The order update in a context with every capability. *)
Lemma present_capability_values_witness :
  (decode_message (Text order_update_text) = Ok order_update) ∧
  (process_body (Text order_update_text) full_context = Ok (stub_out, order_log)) ∧
  (∃ enriched,
    emits order_update full_context stub_out enriched ∧
    (∀ v, get_function_name full_context = Some (Ok v) →
       at_path ["enrichment"; "processing_metadata"; "function_name"] enriched
         = Some v) ∧
    (∀ v, get_function_version full_context = Some (Ok v) →
       at_path ["enrichment"; "processing_metadata"; "function_version"] enriched
         = Some v) ∧
    (∀ v, get_message_id full_context = Some (Ok v) →
       at_path ["enrichment"; "processing_metadata"; "message_id"] enriched
         = Some (VStr (py_str v))) ∧
    (∀ v, get_current_message_topic_name full_context = Some (Ok v) →
       at_path ["enrichment"; "processing_metadata"; "topic"] enriched = Some v) ∧
    (∀ v, get_partition_id full_context = Some (Ok v) →
       at_path ["enrichment"; "processing_metadata"; "partition_id"] enriched
         = Some v)).
Proof.
  assert (decode_message (Text order_update_text) = Ok order_update) as H1
    by (vm_compute; reflexivity).
  assert (process_body (Text order_update_text) full_context = Ok (stub_out, order_log)) as H2
    by (vm_compute; reflexivity).
  split; [exact H1 |].
  split; [exact H2 |].
  apply (present_capability_values (Text order_update_text) full_context order_update stub_out order_log H1 H2).
Defined.

(** The groups of the order update. *)
Lemma enrichment_has_only_its_groups_witness :
  (decode_message (Text order_update_text) = Ok order_update) ∧
  (process_body (Text order_update_text) full_context = Ok (stub_out, order_log)) ∧
  (∃ enriched,
    emits order_update full_context stub_out enriched ∧
    ∀ key, is_Some (at_path ["enrichment"; key] enriched) →
      key ∈ ["operation"; "timestamps"; "source_metadata"; "data_quality";
             "customer_insights"; "processing_metadata"]).
Proof.
  assert (decode_message (Text order_update_text) = Ok order_update) as H1
    by (vm_compute; reflexivity).
  assert (process_body (Text order_update_text) full_context = Ok (stub_out, order_log)) as H2
    by (vm_compute; reflexivity).
  split; [exact H1 |].
  split; [exact H2 |].
  apply (enrichment_has_only_its_groups (Text order_update_text) full_context order_update stub_out order_log H1 H2).
Defined.

(** The timestamp of the order update. *)
Lemma timestamps_from_runtime_witness :
  (decode_message (Text order_update_text) = Ok order_update) ∧
  (process_body (Text order_update_text) full_context = Ok (stub_out, order_log)) ∧
  (field "ts_ms" order_update = Some (VInt 1700000000000)) ∧
  (truthy (VInt 1700000000000) = true) ∧
  (∃ enriched iso,
    emits order_update full_context stub_out enriched ∧
    event_time_iso (VInt 1700000000000) = Ok iso ∧
    at_path ["enrichment"; "timestamps"; "event_time_iso"] enriched
      = Some (VStr iso) ∧
    at_path ["enrichment"; "timestamps"; "processing_time_iso"] enriched
      = Some (VStr utcnow_iso)).
Proof.
  assert (decode_message (Text order_update_text) = Ok order_update) as H1
    by (vm_compute; reflexivity).
  assert (process_body (Text order_update_text) full_context = Ok (stub_out, order_log)) as H2
    by (vm_compute; reflexivity).
  assert (field "ts_ms" order_update = Some (VInt 1700000000000)) as H3
    by (vm_compute; reflexivity).
  assert (truthy (VInt 1700000000000) = true) as H4
    by (reflexivity).
  split; [exact H1 |].
  split; [exact H2 |].
  split; [exact H3 |].
  split; [exact H4 |].
  apply (timestamps_from_runtime (Text order_update_text) full_context order_update stub_out order_log (VInt 1700000000000) H1 H2 H3 H4).
Defined.

(** A [null] source. *)
Lemma non_mapping_source_passes_through_witness :
  let d : gmap string value :=
    (<["source" := VNone]> ∅) in
  (has_logger full_context = true) ∧
  (decode_message (Text null_source_text) = Ok (VDict d)) ∧
  (d !! "source" = Some VNone) ∧
  (∀ m : gmap string value, VNone ≠ VDict m) ∧
  (∃ e, process_body (Text null_source_text) full_context = Raise e ∧
       process (Text null_source_text) full_context
         = (Returned (Text null_source_text), [LogError (error_line e)])).
Proof.
  intros d.
  assert (has_logger full_context = true) as H1
    by (reflexivity).
  assert (decode_message (Text null_source_text) = Ok (VDict d)) as H2
    by (vm_compute; reflexivity).
  assert (d !! "source" = Some VNone) as H3
    by (vm_compute; reflexivity).
  assert (∀ m : gmap string value, VNone ≠ VDict m) as H4
    by (discriminate).
  split; [exact H1 |].
  split; [exact H2 |].
  split; [exact H3 |].
  split; [exact H4 |].
  apply (non_mapping_source_passes_through (Text null_source_text) full_context d VNone H1 H2 H3 H4).
Defined.

(** A list under [op]. *)
Lemma unhashable_op_passes_through_witness :
  let d : gmap string value :=
    (<["op" := VList []]> ∅) in
  (has_logger full_context = true) ∧
  (decode_message (Text list_op_text) = Ok (VDict d)) ∧
  (d !! "op" = Some (VList [])) ∧
  ((∃ l, VList [] = VList l) ∨ (∃ m, VList [] = VDict m)) ∧
  (process (Text list_op_text) full_context
  = (Returned (Text list_op_text),
     [LogError ("Error processing message: unhashable type: '"
                ++ type_name (VList []) ++ "'")])).
Proof.
  intros d.
  assert (has_logger full_context = true) as H1
    by (reflexivity).
  assert (decode_message (Text list_op_text) = Ok (VDict d)) as H2
    by (vm_compute; reflexivity).
  assert (d !! "op" = Some (VList [])) as H3
    by (vm_compute; reflexivity).
  assert ((∃ l, VList [] = VList l) ∨ (∃ m, VList [] = VDict m)) as H4
    by (left; by exists []).
  split; [exact H1 |].
  split; [exact H2 |].
  split; [exact H3 |].
  split; [exact H4 |].
  apply (unhashable_op_passes_through (Text list_op_text) full_context d (VList []) H1 H2 H3 H4).
Defined.

(** A string under [ts_ms]. *)
Lemma non_numeric_ts_passes_through_witness :
  let d : gmap string value :=
    (<["ts_ms" := VStr "soon"]> ∅) in
  (has_logger full_context = true) ∧
  (decode_message (Text string_ts_text) = Ok (VDict d)) ∧
  (d !! "ts_ms" = Some (VStr "soon")) ∧
  (truthy (VStr "soon") = true) ∧
  (∀ z, VStr "soon" ≠ VInt z) ∧
  (∀ b, VStr "soon" ≠ VBool b) ∧
  (∀ f, VStr "soon" ≠ VFloat f) ∧
  (∃ e, process_body (Text string_ts_text) full_context = Raise e ∧
       process (Text string_ts_text) full_context
         = (Returned (Text string_ts_text), [LogError (error_line e)])).
Proof.
  intros d.
  assert (has_logger full_context = true) as H1
    by (reflexivity).
  assert (decode_message (Text string_ts_text) = Ok (VDict d)) as H2
    by (vm_compute; reflexivity).
  assert (d !! "ts_ms" = Some (VStr "soon")) as H3
    by (vm_compute; reflexivity).
  assert (truthy (VStr "soon") = true) as H4
    by (reflexivity).
  assert (∀ z, VStr "soon" ≠ VInt z) as H5
    by (discriminate).
  assert (∀ b, VStr "soon" ≠ VBool b) as H6
    by (discriminate).
  assert (∀ f, VStr "soon" ≠ VFloat f) as H7
    by (discriminate).
  split; [exact H1 |].
  split; [exact H2 |].
  split; [exact H3 |].
  split; [exact H4 |].
  split; [exact H5 |].
  split; [exact H6 |].
  split; [exact H7 |].
  apply (non_numeric_ts_passes_through (Text string_ts_text) full_context d (VStr "soon") H1 H2 H3 H4 H5 H6 H7).
Defined.

(** The number 0 under [after]. *)
Lemma unsized_after_passes_through_witness :
  let d : gmap string value :=
    (<["after" := VInt 0]> ∅) in
  (has_logger full_context = true) ∧
  (decode_message (Text zero_after_text) = Ok (VDict d)) ∧
  (d !! "after" = Some (VInt 0)) ∧
  ((∃ b, VInt 0 = VBool b) ∨ (∃ z, VInt 0 = VInt z) ∨ (∃ f, VInt 0 = VFloat f)) ∧
  (∃ e, process_body (Text zero_after_text) full_context = Raise e ∧
       process (Text zero_after_text) full_context
         = (Returned (Text zero_after_text), [LogError (error_line e)])).
Proof.
  intros d.
  assert (has_logger full_context = true) as H1
    by (reflexivity).
  assert (decode_message (Text zero_after_text) = Ok (VDict d)) as H2
    by (vm_compute; reflexivity).
  assert (d !! "after" = Some (VInt 0)) as H3
    by (vm_compute; reflexivity).
  assert ((∃ b, VInt 0 = VBool b) ∨ (∃ z, VInt 0 = VInt z) ∨ (∃ f, VInt 0 = VFloat f)) as H4
    by (right; left; by exists 0%Z).
  split; [exact H1 |].
  split; [exact H2 |].
  split; [exact H3 |].
  split; [exact H4 |].
  apply (unsized_after_passes_through (Text zero_after_text) full_context d (VInt 0) H1 H2 H3 H4).
Defined.

(** The delete in a context whose partition accessor raises. *)
Lemma raising_accessor_passes_through_witness :
  let d : gmap string value :=
    (<["op" := VStr "d"]> (<["before" := VDict (<["id" := VInt 1]> ∅)]>
     (<["after" := VNone]> ∅))) in
  (has_logger raising_context = true) ∧
  (decode_message (Text order_delete_text) = Ok (VDict d)) ∧
  (get_function_name raising_context = Some (Raise (Exn "RuntimeError" "no partition")) ∨
  get_function_version raising_context = Some (Raise (Exn "RuntimeError" "no partition")) ∨
  get_message_id raising_context = Some (Raise (Exn "RuntimeError" "no partition")) ∨
  get_current_message_topic_name raising_context
    = Some (Raise (Exn "RuntimeError" "no partition")) ∨
  get_partition_id raising_context = Some (Raise (Exn "RuntimeError" "no partition"))) ∧
  (∃ e', process_body (Text order_delete_text) raising_context = Raise e' ∧
        process (Text order_delete_text) raising_context
          = (Returned (Text order_delete_text), [LogError (error_line e')])).
Proof.
  intros d.
  assert (has_logger raising_context = true) as H1
    by (reflexivity).
  assert (decode_message (Text order_delete_text) = Ok (VDict d)) as H2
    by (vm_compute; reflexivity).
  assert (get_function_name raising_context = Some (Raise (Exn "RuntimeError" "no partition")) ∨
  get_function_version raising_context = Some (Raise (Exn "RuntimeError" "no partition")) ∨
  get_message_id raising_context = Some (Raise (Exn "RuntimeError" "no partition")) ∨
  get_current_message_topic_name raising_context
    = Some (Raise (Exn "RuntimeError" "no partition")) ∨
  get_partition_id raising_context = Some (Raise (Exn "RuntimeError" "no partition"))) as H3
    by (do 4 right; reflexivity).
  split; [exact H1 |].
  split; [exact H2 |].
  split; [exact H3 |].
  apply (raising_accessor_passes_through (Text order_delete_text) raising_context d (Exn "RuntimeError" "no partition") H1 H2 H3).
Defined.

(** The order update is a mutation labelled UPDATE. *)
Lemma mutation_iff_write_label_witness :
  (decode_message (Text order_update_text) = Ok order_update) ∧
  (process_body (Text order_update_text) full_context = Ok (stub_out, order_log)) ∧
  (∃ enriched label is_mutation,
    emits order_update full_context stub_out enriched ∧
    at_path ["enrichment"; "operation"; "label"] enriched = Some (VStr label) ∧
    at_path ["enrichment"; "operation"; "is_mutation"] enriched
      = Some (VBool is_mutation) ∧
    (is_mutation = true ↔ label ∈ ["CREATE"; "UPDATE"; "DELETE"])).
Proof.
  assert (decode_message (Text order_update_text) = Ok order_update) as H1
    by (vm_compute; reflexivity).
  assert (process_body (Text order_update_text) full_context = Ok (stub_out, order_log)) as H2
    by (vm_compute; reflexivity).
  split; [exact H1 |].
  split; [exact H2 |].
  apply (mutation_iff_write_label (Text order_update_text) full_context order_update stub_out order_log H1 H2).
Defined.

(** The flags of the order update. *)
Lemma data_quality_flags_agree_witness :
  (decode_message (Text order_update_text) = Ok order_update) ∧
  (process_body (Text order_update_text) full_context = Ok (stub_out, order_log)) ∧
  (∃ enriched has_after field_count is_complete,
    emits order_update full_context stub_out enriched ∧
    at_path ["enrichment"; "data_quality"; "has_after"] enriched
      = Some (VBool has_after) ∧
    at_path ["enrichment"; "data_quality"; "field_count"] enriched
      = Some (VInt field_count) ∧
    at_path ["enrichment"; "data_quality"; "is_complete"] enriched
      = Some (VBool is_complete) ∧
    (is_complete = true ↔ (0 < field_count)%Z) ∧
    (is_complete = true → has_after = true) ∧
    (0 ≤ field_count)%Z).
Proof.
  assert (decode_message (Text order_update_text) = Ok order_update) as H1
    by (vm_compute; reflexivity).
  assert (process_body (Text order_update_text) full_context = Ok (stub_out, order_log)) as H2
    by (vm_compute; reflexivity).
  split; [exact H1 |].
  split; [exact H2 |].
  apply (data_quality_flags_agree (Text order_update_text) full_context order_update stub_out order_log H1 H2).
Defined.

(** The order update has an address and a complete row. *)
Lemma insights_imply_complete_witness :
  (decode_message (Text order_update_text) = Ok order_update) ∧
  (process_body (Text order_update_text) full_context = Ok (stub_out, order_log)) ∧
  (∃ enriched,
    emits order_update full_context stub_out enriched ∧
    (is_Some (at_path ["enrichment"; "customer_insights"] enriched) →
     at_path ["enrichment"; "data_quality"; "has_after"] enriched
       = Some (VBool true) ∧
     at_path ["enrichment"; "data_quality"; "is_complete"] enriched
       = Some (VBool true))).
Proof.
  assert (decode_message (Text order_update_text) = Ok order_update) as H1
    by (vm_compute; reflexivity).
  assert (process_body (Text order_update_text) full_context = Ok (stub_out, order_log)) as H2
    by (vm_compute; reflexivity).
  split; [exact H1 |].
  split; [exact H2 |].
  apply (insights_imply_complete (Text order_update_text) full_context order_update stub_out order_log H1 H2).
Defined.

(** The address of the order update is not empty. *)
Lemma has_email_iff_length_witness :
  let after : gmap string value :=
    (<["status" := VStr "shipped"]> (<["email" := VStr "x@y.com"]> ∅)) in
  (decode_message (Text order_update_text) = Ok order_update) ∧
  (process_body (Text order_update_text) full_context = Ok (stub_out, order_log)) ∧
  (field "after" order_update = Some (VDict after)) ∧
  (is_Some (after !! "email")) ∧
  (∃ enriched has_email email_length,
    emits order_update full_context stub_out enriched ∧
    at_path ["enrichment"; "customer_insights"; "has_email"] enriched
      = Some (VBool has_email) ∧
    at_path ["enrichment"; "customer_insights"; "email_length"] enriched
      = Some (VInt email_length) ∧
    (has_email = true ↔ (0 < email_length)%Z)).
Proof.
  intros after.
  assert (decode_message (Text order_update_text) = Ok order_update) as H1
    by (vm_compute; reflexivity).
  assert (process_body (Text order_update_text) full_context = Ok (stub_out, order_log)) as H2
    by (vm_compute; reflexivity).
  assert (field "after" order_update = Some (VDict after)) as H3
    by (vm_compute; reflexivity).
  assert (is_Some (after !! "email")) as H4
    by (exists (VStr "x@y.com"); vm_compute; reflexivity).
  split; [exact H1 |].
  split; [exact H2 |].
  split; [exact H3 |].
  split; [exact H4 |].
  apply (has_email_iff_length (Text order_update_text) full_context order_update stub_out order_log after H1 H2 H3 H4).
Defined.
(** The delete, group by group: no [timestamps], no [source_metadata], no
    [customer_insights]. *)
Example order_delete_enriched :
  process (Text order_delete_text) full_context = (Returned (Bytes stub_out), delete_log) ∧
  emitted_at order_delete full_context ["enrichment"; "operation"; "label"]
    = Ok (Some (VStr "DELETE")) ∧
  emitted_at order_delete full_context ["enrichment"; "timestamps"] = Ok None ∧
  emitted_at order_delete full_context ["enrichment"; "source_metadata"] = Ok None ∧
  emitted_at order_delete full_context ["enrichment"; "customer_insights"] = Ok None ∧
  emitted_at order_delete full_context ["enrichment"; "data_quality"]
    = Ok (Some (VDict (<["has_before" := VBool true]> (<["has_after" := VBool false]>
                      (<["field_count" := VInt 0]> (<["is_complete" := VBool false]> ∅)))))).
Proof. split_and!; vm_compute; reflexivity. Qed.

(** The error lines of the events that are passed through. *)
Example passed_through_events :
  process (Text json_array_text) full_context
    = (Returned (Text json_array_text),
       [LogError "Error processing message: 'list' object has no attribute 'get'"]) ∧
  process (Text list_op_text) full_context
    = (Returned (Text list_op_text),
       [LogError "Error processing message: unhashable type: 'list'"]) ∧
  process (Text string_ts_text) full_context
    = (Returned (Text string_ts_text),
       [LogError "Error processing message: unsupported operand type(s) for /: 'str' and 'float'"]) ∧
  process (Text zero_after_text) full_context
    = (Returned (Text zero_after_text),
       [LogError "Error processing message: object of type 'int' has no len()"]) ∧
  process (Text order_delete_text) raising_context
    = (Returned (Text order_delete_text),
       [LogError "Error processing message: no partition"]).
Proof. split_and!; vm_compute; reflexivity. Qed.

End FurtherExamples.
